(** * The MCP dispatch core of the ZetaChain server

    A shallow embedding of [zetachain_mcp_server/core/base.py] (class
    [MCPServer]), [core/transport.py] (class [StdioTransport]) and the
    tool table of [server.py] (class [ZetaChainMCPServer]).

    Python values are a first-order data type, methods that read or
    write [self] are functions in a state-and-exception monad, and the
    collaborators behind the tool handlers (wallet, bridge, governance
    and pool managers) are parameters. *)

From Stdlib Require Import String Ascii ZArith List Bool Lia DecimalString.
Import ListNotations.

Local Open Scope string_scope.
Local Open Scope list_scope.

(** Both scopes define [++]; string concatenation gets a symbol of its own. *)
Infix "^^" := String.append (at level 60, right associativity).

(* ===================================================================== *)
(** * Python values *)
(* ===================================================================== *)

(** A [str] is the sequence of its code points; the model covers the code
    points below 256, one [ascii] each. *)

(** A float is known by the text Python prints for it. *)
Inductive pyfloat : Type :=
| FNan
| FInf (negative : bool)
| FFinite (repr : string).

#[local] Set Warnings "-register-all".

(** What [json.loads] can build, plus [VObj] for any other object a tool
    handler may return (a set, bytes, a Decimal ...), known by the name of
    its class.  A [dict] keeps its insertion order; its keys are strings. *)
Inductive value : Type :=
| VNone
| VBool (b : bool)
| VInt (n : Z)
| VFloat (f : pyfloat)
| VStr (s : string)
| VList (xs : list value)
| VDict (kvs : list (string * value))
| VObj (class_name : string).

(** An instance of [Exception], which is what [except Exception] catches:
    its class and [str(e)].  Interrupts and cancellation, which are not
    [Exception]s, are outside the model. *)
Record exn : Type := Exn { exn_class : string; exn_text : string }.

Definition ValueError (msg : string) : exn := Exn "ValueError" msg.
Definition TypeError (msg : string) : exn := Exn "TypeError" msg.
Definition AttributeError (msg : string) : exn := Exn "AttributeError" msg.

(** The result of running Python code: a value, or a raised exception. *)
Inductive outcome (A : Type) : Type :=
| Ok (a : A)
| Raise (e : exn).
Arguments Ok {A} a.
Arguments Raise {A} e.

(* --------------------------------------------------------------------- *)
(** ** Characters and text *)

Definition dquote : string := String "034"%char "".
Definition squote : string := "'".
Definition backslash : string := "\".
Definition newline : string := String "010"%char "".

Fixpoint join (sep : string) (parts : list string) : string :=
  match parts with
  | [] => ""
  | [p] => p
  | p :: rest => p ^^ sep ^^ join sep rest
  end.

Fixpoint spaces (n : nat) : string :=
  match n with
  | O => ""
  | S k => " " ^^ spaces k
  end.

Definition hex_digit (n : nat) : string :=
  String (nth n (list_ascii_of_string "0123456789abcdef") "0"%char) "".

(** Two hexadecimal digits of a code point below 256. *)
Definition hex2 (n : nat) : string :=
  hex_digit (n / 16) ^^ hex_digit (n mod 16).

Fixpoint flat_map_string (f : ascii -> string) (s : string) : string :=
  match s with
  | EmptyString => ""
  | String c rest => f c ^^ flat_map_string f rest
  end.

Fixpoint string_mem (c : ascii) (s : string) : bool :=
  match s with
  | EmptyString => false
  | String d rest => Ascii.eqb c d || string_mem c rest
  end.

(** [int.__repr__]. *)
Definition string_of_Z (n : Z) : string :=
  NilEmpty.string_of_int (Z.to_int n).

(** [float.__repr__]. *)
Definition float_repr (f : pyfloat) : string :=
  match f with
  | FNan => "nan"
  | FInf false => "inf"
  | FInf true => "-inf"
  | FFinite r => r
  end.

(** [str.__repr__]: single quotes unless the text has a single quote and
    no double quote; control and non-printable code points as [\xNN]. *)
Definition str_repr_char (quote : ascii) (c : ascii) : string :=
  let n := nat_of_ascii c in
  if Ascii.eqb c quote || Ascii.eqb c "\"%char then backslash ^^ String c ""
  else if Nat.eqb n 9 then "\t"
  else if Nat.eqb n 10 then "\n"
  else if Nat.eqb n 13 then "\r"
  else if Nat.ltb n 32 || Nat.eqb n 127 then "\x" ^^ hex2 n
  else if Nat.ltb n 127 then String c ""
  else if Nat.leb n 160 || Nat.eqb n 173 then "\x" ^^ hex2 n
  else String c "".

Definition str_repr (s : string) : string :=
  let quote :=
    if string_mem "'"%char s && negb (string_mem "034"%char s)
    then "034"%char else "'"%char in
  String quote "" ^^ flat_map_string (str_repr_char quote) s ^^ String quote "".

(** [repr(v)]. *)
Fixpoint py_repr (v : value) : string :=
  match v with
  | VNone => "None"
  | VBool true => "True"
  | VBool false => "False"
  | VInt n => string_of_Z n
  | VFloat f => float_repr f
  | VStr s => str_repr s
  | VList xs => "[" ^^ join ", " (map py_repr xs) ^^ "]"
  | VDict kvs =>
      "{" ^^ join ", " (map (fun kv => str_repr (fst kv) ^^ ": " ^^ py_repr (snd kv)) kvs)
          ^^ "}"
  | VObj c => "<" ^^ c ^^ " object>"
  end.

(** [str(v)], which is what an f-string field [{v}] prints. *)
Definition py_str (v : value) : string :=
  match v with
  | VStr s => s
  | _ => py_repr v
  end.

(** [type(v).__name__]. *)
Definition type_name (v : value) : string :=
  match v with
  | VNone => "NoneType"
  | VBool _ => "bool"
  | VInt _ => "int"
  | VFloat _ => "float"
  | VStr _ => "str"
  | VList _ => "list"
  | VDict _ => "dict"
  | VObj c => c
  end.

(** [v == s] for a string literal [s]. *)
Definition eq_str (v : value) (s : string) : bool :=
  match v with
  | VStr t => String.eqb t s
  | _ => false
  end.

(* --------------------------------------------------------------------- *)
(** ** Dictionaries *)

Fixpoint dict_lookup (kvs : list (string * value)) (key : string) : option value :=
  match kvs with
  | [] => None
  | (k, v) :: rest => if String.eqb k key then Some v else dict_lookup rest key
  end.

(** [d.get(key, default)] on a dict. *)
Definition dict_get (kvs : list (string * value)) (key : string) (default : value) : value :=
  match dict_lookup kvs key with
  | Some v => v
  | None => default
  end.

(** [obj.get(key, default)] on any value: only a dict has the method. *)
Definition get_method (obj : value) (key : string) (default : value) : outcome value :=
  match obj with
  | VDict kvs => Ok (dict_get kvs key default)
  | _ => Raise (AttributeError
                  ("'" ^^ type_name obj ^^ "' object has no attribute 'get'"))
  end.

(* --------------------------------------------------------------------- *)
(** ** [json.dumps] *)

(** [json.encoder.encode_basestring_ascii]: the text between double
    quotes, everything outside the printable ASCII range escaped. *)
Definition escape_char (c : ascii) : string :=
  let n := nat_of_ascii c in
  if Nat.eqb n 34 then backslash ^^ dquote
  else if Nat.eqb n 92 then backslash ^^ backslash
  else if Nat.eqb n 10 then "\n"
  else if Nat.eqb n 13 then "\r"
  else if Nat.eqb n 9 then "\t"
  else if Nat.eqb n 8 then "\b"
  else if Nat.eqb n 12 then "\f"
  else if Nat.ltb n 32 || Nat.ltb 126 n then "\u00" ^^ hex2 n
  else String c "".

Definition encode_basestring_ascii (s : string) : string :=
  dquote ^^ flat_map_string escape_char s ^^ dquote.

(** [float.__repr__] with the three names the encoder gives to
    non-finite floats ([allow_nan] is on by default). *)
Definition floatstr (f : pyfloat) : string :=
  match f with
  | FNan => "NaN"
  | FInf false => "Infinity"
  | FInf true => "-Infinity"
  | FFinite r => r
  end.

(** What the encoder writes after an opening bracket and before a closing
    one: nothing without [indent], else a line break and the indentation
    of the level. *)
Definition newline_indent (indent : option nat) (level : nat) : string :=
  match indent with
  | None => ""
  | Some n => newline ^^ spaces (n * level)
  end.

(** The separator between items: [", "] without [indent], else a comma
    and the line break. *)
Definition item_separator (indent : option nat) (level : nat) : string :=
  match indent with
  | None => ", "
  | Some _ => "," ^^ newline_indent indent level
  end.

(** The encoder walks the value in order and raises [TypeError] at the
    first object it cannot serialize. *)
Fixpoint encode (indent : option nat) (level : nat) (v : value) : outcome string :=
  match v with
  | VNone => Ok "null"
  | VBool true => Ok "true"
  | VBool false => Ok "false"
  | VInt n => Ok (string_of_Z n)
  | VFloat f => Ok (floatstr f)
  | VStr s => Ok (encode_basestring_ascii s)
  | VList [] => Ok "[]"
  | VList xs =>
      let fix items (l : list value) : outcome (list string) :=
        match l with
        | [] => Ok []
        | x :: rest =>
            match encode indent (S level) x with
            | Raise e => Raise e
            | Ok s =>
                match items rest with
                | Raise e => Raise e
                | Ok ss => Ok (s :: ss)
                end
            end
        end in
      match items xs with
      | Raise e => Raise e
      | Ok ss =>
          Ok ("[" ^^ newline_indent indent (S level)
                  ^^ join (item_separator indent (S level)) ss
                  ^^ newline_indent indent level ^^ "]")
      end
  | VDict [] => Ok "{}"
  | VDict kvs =>
      let fix items (l : list (string * value)) : outcome (list string) :=
        match l with
        | [] => Ok []
        | (k, x) :: rest =>
            match encode indent (S level) x with
            | Raise e => Raise e
            | Ok s =>
                match items rest with
                | Raise e => Raise e
                | Ok ss => Ok ((encode_basestring_ascii k ^^ ": " ^^ s) :: ss)
                end
            end
        end in
      match items kvs with
      | Raise e => Raise e
      | Ok ss =>
          Ok ("{" ^^ newline_indent indent (S level)
                  ^^ join (item_separator indent (S level)) ss
                  ^^ newline_indent indent level ^^ "}")
      end
  | VObj c => Raise (TypeError ("Object of type " ^^ c ^^ " is not JSON serializable"))
  end.

(** [json.dumps(v)] and [json.dumps(v, indent=n)]. *)
Definition json_dumps (indent : option nat) (v : value) : outcome string :=
  encode indent 0 v.

(* ===================================================================== *)
(** * [core/transport.py]: [StdioTransport] *)
(* ===================================================================== *)

Record StdioTransport : Type := { _closed : bool }.

(** [str.isspace] on one code point. *)
Definition isspace (c : ascii) : bool :=
  let n := nat_of_ascii c in
  (Nat.leb 9 n && Nat.leb n 13) || (Nat.leb 28 n && Nat.leb n 32)
  || Nat.eqb n 133 || Nat.eqb n 160.

Fixpoint lstrip (s : string) : string :=
  match s with
  | EmptyString => ""
  | String c rest => if isspace c then lstrip rest else s
  end.

Fixpoint rstrip (s : string) : string :=
  match s with
  | EmptyString => ""
  | String c rest =>
      match rstrip rest with
      | EmptyString => if isspace c then "" else String c ""
      | kept => String c kept
      end
  end.

(** [str.strip()]. *)
Definition strip (s : string) : string := rstrip (lstrip s).

(** The truth value of a string: false when empty. *)
Definition truthy (s : string) : bool :=
  match s with
  | EmptyString => false
  | String _ _ => true
  end.

(** [read_request]; [line] is what [sys.stdin.readline] hands back, the
    empty string at the end of the input. *)
Definition read_request (t : StdioTransport) (line : string) : option string :=
  if _closed t then None
  else if truthy line then Some (strip line) else None.

(** [write_response]: one more line on the output, unless closed. *)
Definition write_response (t : StdioTransport) (response : string)
  (stdout : list string) : list string :=
  if _closed t then stdout else stdout ++ [response].

Definition transport_close (t : StdioTransport) : StdioTransport :=
  {| _closed := true |}.

(* ===================================================================== *)
(** * [core/base.py]: [MCPServer] *)
(* ===================================================================== *)

Inductive level : Type := INFO | ERROR.

Section MCPServer.

(** The state of the collaborators a subclass holds (managers, chain
    connection); the base class never looks inside. *)
Variable C : Type.

(** The fields of [self].  [load_calls] is not a field of the class: it
    counts how often [_load_tools] was entered.  [log] is what went to
    the module's logger. *)
Record MCPServer : Type := {
  tools : list value;
  _initialized : bool;
  transport : StdioTransport;
  collaborators : C;
  load_calls : nat;
  log : list (level * string)
}.

(** [MCPServer.__init__]. *)
Definition new_server (c : C) : MCPServer :=
  {| tools := []; _initialized := false; transport := {| _closed := false |};
     collaborators := c; load_calls := 0; log := [] |}.

(** A bound [tool_*] method called as [tool_method( **arguments )]: it
    returns or raises, and may change the collaborators. *)
Definition handler : Type := value -> C -> outcome value * C.

(** What a concrete subclass supplies: the abstract [_load_tools], which
    may rebind [self.tools], and its [tool_*] methods; [tool_method a]
    is [getattr(self, a, None)] for an attribute name [a] that starts
    with [tool_] (the base class has no such attribute of its own). *)
Record subclass : Type := {
  _load_tools : list value -> C -> outcome unit * (list value * C);
  tool_method : string -> option handler;
  (** what an overriding [close] does to the collaborators before it
      calls [super().close()] *)
  close_collaborators : C -> outcome unit * C
}.

Variable cls : subclass.

(* ------------------------------------------------------------------- *)
(** ** Methods as state transformers that may raise *)

Definition M (A : Type) : Type := MCPServer -> outcome A * MCPServer.

Definition ret {A} (a : A) : M A := fun self => (Ok a, self).

Definition bind {A B} (m : M A) (k : A -> M B) : M B :=
  fun self =>
    match m self with
    | (Ok a, self') => k a self'
    | (Raise e, self') => (Raise e, self')
    end.

Definition raise {A} (e : exn) : M A := fun self => (Raise e, self).

(** [try: body  except Exception as e: on_error e]; what [body] did to
    [self] before it raised stays done. *)
Definition try_except {A} (body : M A) (on_error : exn -> M A) : M A :=
  fun self =>
    match body self with
    | (Ok a, self') => (Ok a, self')
    | (Raise e, self') => on_error e self'
    end.

(** A pure computation that may raise. *)
Definition lift {A} (o : outcome A) : M A := fun self => (o, self).

Definition get : M MCPServer := fun self => (Ok self, self).

(** Assignments to single fields of [self]. *)
Definition add_log (l : level) (msg : string) (self : MCPServer) : MCPServer :=
  {| tools := tools self; _initialized := _initialized self;
     transport := transport self; collaborators := collaborators self;
     load_calls := load_calls self; log := log self ++ [(l, msg)] |}.

Definition set_initialized (b : bool) (self : MCPServer) : MCPServer :=
  {| tools := tools self; _initialized := b;
     transport := transport self; collaborators := collaborators self;
     load_calls := load_calls self; log := log self |}.

Definition set_collaborators (c : C) (self : MCPServer) : MCPServer :=
  {| tools := tools self; _initialized := _initialized self;
     transport := transport self; collaborators := c;
     load_calls := load_calls self; log := log self |}.

Definition set_transport (t : StdioTransport) (self : MCPServer) : MCPServer :=
  {| tools := tools self; _initialized := _initialized self;
     transport := t; collaborators := collaborators self;
     load_calls := load_calls self; log := log self |}.

(** [self.tools] rebound by the loader, and the loader counted. *)
Definition loaded (ts : list value) (c : C) (self : MCPServer) : MCPServer :=
  {| tools := ts; _initialized := _initialized self;
     transport := transport self; collaborators := c;
     load_calls := S (load_calls self); log := log self |}.

Definition modify (f : MCPServer -> MCPServer) : M unit :=
  fun self => (Ok tt, f self).

Definition logger (l : level) (msg : string) : M unit := modify (add_log l msg).

(** [await self._load_tools()]. *)
Definition call_load_tools : M unit :=
  fun self =>
    let '(r, (ts, c)) := _load_tools cls (tools self) (collaborators self) in
    (r, loaded ts c self).

(** [await tool_method( **arguments )]. *)
Definition call_handler (h : handler) (arguments : value) : M value :=
  fun self =>
    let '(r, c) := h arguments (collaborators self) in
    (r, set_collaborators c self).

Notation "x <- m ;; k" := (bind m (fun x => k))
  (at level 61, m at next level, right associativity).
Notation "m ;; k" := (bind m (fun _ => k))
  (at level 61, right associativity).

(* ------------------------------------------------------------------- *)
(** ** The methods *)

Definition capabilities : value :=
  VDict [
    ("protocolVersion", VStr "2024-11-05");
    ("capabilities", VDict [
       ("tools", VDict [("listChanged", VBool true)]);
       ("resources", VDict [("subscribe", VBool true); ("listChanged", VBool true)]);
       ("prompts", VDict [("listChanged", VBool true)]);
       ("logging", VDict []);
       ("experimental", VDict [])]);
    ("serverInfo", VDict [
       ("name", VStr "zetachain-mcp-server");
       ("version", VStr "1.0.0")])].

Definition initialize : M value :=
  self <- get ;;
  (if negb (_initialized self) then
     call_load_tools ;;
     modify (set_initialized true) ;;
     logger INFO "ZetaChain MCP Server initialized"
   else ret tt) ;;
  ret capabilities.

Definition list_tools : M value :=
  self <- get ;;
  ret (VList (tools self)).

Definition call_tool (name arguments : value) : M value :=
  match tool_method cls ("tool_" ^^ py_str name) with
  | None => raise (ValueError ("Tool '" ^^ py_str name ^^ "' not found"))
  | Some tool =>
      try_except
        (result <- call_handler tool arguments ;;
         ret (VDict [("success", VBool true); ("result", result)]))
        (fun e =>
           logger ERROR ("Error in tool " ^^ py_str name ^^ ": " ^^ exn_text e) ;;
           ret (VDict [("success", VBool false); ("error", VStr (exn_text e))]))
  end.

(** The two shapes of a response. *)
Definition response_result (request_id result : value) : value :=
  VDict [("jsonrpc", VStr "2.0"); ("id", request_id); ("result", result)].

Definition response_error (request_id : value) (code : Z) (message : string) : value :=
  VDict [("jsonrpc", VStr "2.0"); ("id", request_id);
         ("error", VDict [("code", VInt code); ("message", VStr message)])].

(** The body of the [try] block of [handle_request]. *)
Definition dispatch (method params request_id : value) : M value :=
  if eq_str method "initialize" then
    result <- initialize ;;
    ret (response_result request_id result)
  else if eq_str method "tools/list" then
    tools <- list_tools ;;
    ret (response_result request_id (VDict [("tools", tools)]))
  else if eq_str method "tools/call" then
    tool_name <- lift (get_method params "name" VNone) ;;
    tool_args <- lift (get_method params "arguments" (VDict [])) ;;
    result <- call_tool tool_name tool_args ;;
    text <- lift (json_dumps (Some 2) result) ;;
    ret (response_result request_id
           (VDict [("content",
                    VList [VDict [("type", VStr "text"); ("text", VStr text)]])]))
  else
    ret (response_error request_id (-32601) ("Method not found: " ^^ py_str method)).

Definition handle_request (request : value) : M value :=
  method <- lift (get_method request "method" VNone) ;;
  params <- lift (get_method request "params" (VDict [])) ;;
  request_id <- lift (get_method request "id" (VStr "1")) ;;
  try_except
    (dispatch method params request_id)
    (fun e =>
       logger ERROR ("Error handling request " ^^ py_str method ^^ ": " ^^ exn_text e) ;;
       ret (response_error request_id (-32603) (exn_text e))).

(** [MCPServer.close]. *)
Definition base_close : M unit :=
  modify (fun self => set_transport (transport_close (transport self)) self) ;;
  logger INFO "ZetaChain MCP Server closed".

(** [self.close()] as the subclass overrides it. *)
Definition close : M unit :=
  (fun self =>
     let '(r, c) := close_collaborators cls (collaborators self) in
     (r, set_collaborators c self)) ;;
  base_close.

(* ------------------------------------------------------------------- *)
(** ** [MCPServer.run]: the loop over the lines of the input *)

(** [json.loads]: the decoded value, or the text of the
    [JSONDecodeError]. *)
Variable json_loads : string -> value + string.

(** How one pass through the body of [while True] ends. *)
Inductive iteration : Type :=
| Continue (self : MCPServer) (stdout : list string)
| Break (self : MCPServer) (stdout : list string)
| Propagate (e : exn) (self : MCPServer) (stdout : list string).

Definition log_unexpected (e : exn) (self : MCPServer) : MCPServer :=
  add_log ERROR ("Unexpected error: " ^^ exn_text e) self.

(** One pass; [line] is what [readline] returned. *)
Definition iterate (line : string) (self : MCPServer) (stdout : list string)
  : iteration :=
  match read_request (transport self) line with
  | None => Break self stdout
  | Some request_data =>
      if negb (truthy request_data) then Break self stdout
      else
        match json_loads request_data with
        | inl request =>
            match handle_request request self with
            | (Ok response, self') =>
                match json_dumps None response with
                | Ok text =>
                    Continue self' (write_response (transport self') text stdout)
                | Raise e => Break (log_unexpected e self') stdout
                end
            | (Raise e, self') => Break (log_unexpected e self') stdout
            end
        | inr e =>
            match json_dumps None
                    (response_error VNone (-32700) ("Parse error: " ^^ e)) with
            | Ok text =>
                Continue self (write_response (transport self) text stdout)
            | Raise x => Propagate x self stdout
            end
        end
  end.

(** The loop; [stdin] holds the lines still to come, and at its end
    [readline] returns the empty string, on which the loop breaks. *)
Fixpoint loop (stdin : list string) (self : MCPServer) (stdout : list string)
  : outcome unit * MCPServer * list string :=
  match stdin with
  | [] => (Ok tt, self, stdout)
  | line :: rest =>
      match iterate line self stdout with
      | Continue self' stdout' => loop rest self' stdout'
      | Break self' stdout' => (Ok tt, self', stdout')
      | Propagate e self' stdout' => (Raise e, self', stdout')
      end
  end.

(** [run]: [initialize] comes before the [try], so [finally] does not
    cover it. *)
Definition run (stdin : list string) (self : MCPServer)
  : outcome unit * MCPServer * list string :=
  match initialize self with
  | (Raise e, self1) => (Raise e, self1, [])
  | (Ok _, self1) =>
      let '(r, self2, stdout) := loop stdin self1 [] in
      match close self2 with
      | (Ok _, self3) => (r, self3, stdout)
      | (Raise e, self3) => (Raise e, self3, stdout)
      end
  end.

End MCPServer.

Arguments tools {C} _.
Arguments _initialized {C} _.
Arguments transport {C} _.
Arguments collaborators {C} _.
Arguments load_calls {C} _.
Arguments log {C} _.
Arguments new_server {C} c.
Arguments add_log {C} l msg self.
Arguments set_initialized {C} b self.
Arguments set_collaborators {C} c self.
Arguments set_transport {C} t self.
Arguments loaded {C} ts c self.
Arguments _load_tools {C} _ _ _.
Arguments tool_method {C} _ _.
Arguments close_collaborators {C} _ _.
Arguments initialize {C} cls _.
Arguments list_tools {C} _.
Arguments call_tool {C} cls name arguments _.
Arguments dispatch {C} cls method params request_id _.
Arguments handle_request {C} cls request _.
Arguments close {C} cls _.
Arguments base_close {C} _.
Arguments iterate {C} cls json_loads line self stdout.
Arguments loop {C} cls json_loads stdin self stdout.
Arguments run {C} cls json_loads stdin self.
Arguments Continue {C} self stdout.
Arguments Break {C} self stdout.
Arguments Propagate {C} e self stdout.

(* ===================================================================== *)
(** * [server.py]: [ZetaChainMCPServer] *)
(* ===================================================================== *)

(** The list literal that [_load_tools] binds to [self.tools]. *)
Definition zetachain_tools : list value := [
  VDict [
    ("name", VStr "create_wallet");
    ("description", VStr "Create a new ZetaChain wallet");
    ("inputSchema", VDict [
      ("type", VStr "object");
      ("properties", VDict [
        ("name", VDict [("type", VStr "string"); ("description", VStr "Name for the wallet")]);
        ("mnemonic", VDict [
          ("type", VStr "string");
          ("description", VStr "Optional mnemonic phrase")])]);
      ("required", VList [VStr "name"])])];
  VDict [
    ("name", VStr "import_wallet");
    ("description", VStr "Import an existing wallet from private key");
    ("inputSchema", VDict [
      ("type", VStr "object");
      ("properties", VDict [
        ("name", VDict [("type", VStr "string"); ("description", VStr "Name for the wallet")]);
        ("private_key", VDict [
          ("type", VStr "string");
          ("description", VStr "Private key in hex format")])]);
      ("required", VList [VStr "name"; VStr "private_key"])])];
  VDict [
    ("name", VStr "list_wallets");
    ("description", VStr "List all created/imported wallets");
    ("inputSchema", VDict [("type", VStr "object"); ("properties", VDict [])])];
  VDict [
    ("name", VStr "get_balance");
    ("description", VStr "Get balance for a wallet on a specific chain");
    ("inputSchema", VDict [
      ("type", VStr "object");
      ("properties", VDict [
        ("wallet_name", VDict [("type", VStr "string"); ("description", VStr "Name of the wallet")]);
        ("chain", VDict [
          ("type", VStr "string");
          ("description", VStr "Chain name (default: zetachain)")])]);
      ("required", VList [VStr "wallet_name"])])];
  VDict [
    ("name", VStr "get_wallet_info");
    ("description", VStr "Get detailed information about a wallet");
    ("inputSchema", VDict [
      ("type", VStr "object");
      ("properties", VDict [
        ("wallet_name", VDict [("type", VStr "string"); ("description", VStr "Name of the wallet")])]);
      ("required", VList [VStr "wallet_name"])])];
  VDict [
    ("name", VStr "get_supported_chains");
    ("description", VStr "Get list of supported chains for cross-chain operations");
    ("inputSchema", VDict [("type", VStr "object"); ("properties", VDict [])])];
  VDict [
    ("name", VStr "get_bridge_info");
    ("description", VStr "Get bridge information between two chains");
    ("inputSchema", VDict [
      ("type", VStr "object");
      ("properties", VDict [
        ("from_chain", VDict [("type", VStr "string"); ("description", VStr "Source chain")]);
        ("to_chain", VDict [("type", VStr "string"); ("description", VStr "Destination chain")])]);
      ("required", VList [VStr "from_chain"; VStr "to_chain"])])];
  VDict [
    ("name", VStr "estimate_cross_chain_fee");
    ("description", VStr "Estimate fees for cross-chain transfer");
    ("inputSchema", VDict [
      ("type", VStr "object");
      ("properties", VDict [
        ("from_chain", VDict [("type", VStr "string"); ("description", VStr "Source chain")]);
        ("to_chain", VDict [("type", VStr "string"); ("description", VStr "Destination chain")]);
        ("amount", VDict [("type", VStr "string"); ("description", VStr "Amount to transfer")])]);
      ("required", VList [VStr "from_chain"; VStr "to_chain"; VStr "amount"])])];
  VDict [
    ("name", VStr "get_cross_chain_status");
    ("description", VStr "Get status of a cross-chain transaction");
    ("inputSchema", VDict [
      ("type", VStr "object");
      ("properties", VDict [
        ("tx_hash", VDict [("type", VStr "string"); ("description", VStr "Transaction hash")])]);
      ("required", VList [VStr "tx_hash"])])];
  VDict [
    ("name", VStr "get_cross_chain_history");
    ("description", VStr "Get cross-chain transaction history for an address");
    ("inputSchema", VDict [
      ("type", VStr "object");
      ("properties", VDict [
        ("address", VDict [("type", VStr "string"); ("description", VStr "Wallet address")]);
        ("limit", VDict [
          ("type", VStr "integer");
          ("description", VStr "Number of transactions to return")])]);
      ("required", VList [VStr "address"])])];
  VDict [
    ("name", VStr "send_omnichain_message");
    ("description", VStr "Send an omnichain message");
    ("inputSchema", VDict [
      ("type", VStr "object");
      ("properties", VDict [
        ("from_chain", VDict [("type", VStr "string"); ("description", VStr "Source chain")]);
        ("to_chain", VDict [("type", VStr "string"); ("description", VStr "Destination chain")]);
        ("message", VDict [("type", VStr "string"); ("description", VStr "Message content")]);
        ("sender_address", VDict [("type", VStr "string"); ("description", VStr "Sender address")]);
        ("recipient_address", VDict [("type", VStr "string"); ("description", VStr "Recipient address")])]);
      ("required", VList [VStr "from_chain"; VStr "to_chain"; VStr "message"; VStr "sender_address"; VStr "recipient_address"])])];
  VDict [
    ("name", VStr "get_message_status");
    ("description", VStr "Get status of an omnichain message");
    ("inputSchema", VDict [
      ("type", VStr "object");
      ("properties", VDict [
        ("message_id", VDict [("type", VStr "string"); ("description", VStr "Message ID")])]);
      ("required", VList [VStr "message_id"])])];
  VDict [
    ("name", VStr "get_messages");
    ("description", VStr "Get omnichain messages for an address");
    ("inputSchema", VDict [
      ("type", VStr "object");
      ("properties", VDict [
        ("address", VDict [("type", VStr "string"); ("description", VStr "Wallet address")]);
        ("limit", VDict [
          ("type", VStr "integer");
          ("description", VStr "Number of messages to return")])]);
      ("required", VList [VStr "address"])])];
  VDict [
    ("name", VStr "get_omnichain_stats");
    ("description", VStr "Get omnichain messaging statistics");
    ("inputSchema", VDict [("type", VStr "object"); ("properties", VDict [])])];
  VDict [
    ("name", VStr "get_chain_status");
    ("description", VStr "Get status of all supported chains");
    ("inputSchema", VDict [("type", VStr "object"); ("properties", VDict [])])];
  VDict [
    ("name", VStr "get_proposals");
    ("description", VStr "Get governance proposals");
    ("inputSchema", VDict [
      ("type", VStr "object");
      ("properties", VDict [
        ("status", VDict [
          ("type", VStr "string");
          ("description", VStr "Filter by status (voting, passed, failed)")])])])];
  VDict [
    ("name", VStr "get_proposal");
    ("description", VStr "Get details of a specific proposal");
    ("inputSchema", VDict [
      ("type", VStr "object");
      ("properties", VDict [
        ("proposal_id", VDict [("type", VStr "string"); ("description", VStr "Proposal ID")])]);
      ("required", VList [VStr "proposal_id"])])];
  VDict [
    ("name", VStr "vote_on_proposal");
    ("description", VStr "Vote on a governance proposal");
    ("inputSchema", VDict [
      ("type", VStr "object");
      ("properties", VDict [
        ("proposal_id", VDict [("type", VStr "string"); ("description", VStr "Proposal ID")]);
        ("voter_address", VDict [("type", VStr "string"); ("description", VStr "Voter address")]);
        ("vote", VDict [
          ("type", VStr "string");
          ("enum", VList [VStr "yes"; VStr "no"; VStr "abstain"]);
          ("description", VStr "Vote option")]);
        ("voting_power", VDict [("type", VStr "integer"); ("description", VStr "Voting power")])]);
      ("required", VList [VStr "proposal_id"; VStr "voter_address"; VStr "vote"; VStr "voting_power"])])];
  VDict [
    ("name", VStr "get_voting_power");
    ("description", VStr "Get voting power for an address");
    ("inputSchema", VDict [
      ("type", VStr "object");
      ("properties", VDict [
        ("address", VDict [("type", VStr "string"); ("description", VStr "Wallet address")])]);
      ("required", VList [VStr "address"])])];
  VDict [
    ("name", VStr "get_governance_stats");
    ("description", VStr "Get governance statistics");
    ("inputSchema", VDict [("type", VStr "object"); ("properties", VDict [])])];
  VDict [
    ("name", VStr "get_pools");
    ("description", VStr "Get available liquidity pools");
    ("inputSchema", VDict [("type", VStr "object"); ("properties", VDict [])])];
  VDict [
    ("name", VStr "get_pool_info");
    ("description", VStr "Get detailed information about a specific pool");
    ("inputSchema", VDict [
      ("type", VStr "object");
      ("properties", VDict [
        ("pool_id", VDict [("type", VStr "string"); ("description", VStr "Pool ID")])]);
      ("required", VList [VStr "pool_id"])])];
  VDict [
    ("name", VStr "add_liquidity");
    ("description", VStr "Add liquidity to a pool");
    ("inputSchema", VDict [
      ("type", VStr "object");
      ("properties", VDict [
        ("pool_id", VDict [("type", VStr "string"); ("description", VStr "Pool ID")]);
        ("token_a_amount", VDict [("type", VStr "string"); ("description", VStr "Amount of token A")]);
        ("token_b_amount", VDict [("type", VStr "string"); ("description", VStr "Amount of token B")]);
        ("user_address", VDict [("type", VStr "string"); ("description", VStr "User address")])]);
      ("required", VList [VStr "pool_id"; VStr "token_a_amount"; VStr "token_b_amount"; VStr "user_address"])])];
  VDict [
    ("name", VStr "remove_liquidity");
    ("description", VStr "Remove liquidity from a pool");
    ("inputSchema", VDict [
      ("type", VStr "object");
      ("properties", VDict [
        ("pool_id", VDict [("type", VStr "string"); ("description", VStr "Pool ID")]);
        ("lp_tokens", VDict [
          ("type", VStr "string");
          ("description", VStr "Amount of LP tokens to remove")]);
        ("user_address", VDict [("type", VStr "string"); ("description", VStr "User address")])]);
      ("required", VList [VStr "pool_id"; VStr "lp_tokens"; VStr "user_address"])])];
  VDict [
    ("name", VStr "swap_tokens");
    ("description", VStr "Swap tokens in a pool");
    ("inputSchema", VDict [
      ("type", VStr "object");
      ("properties", VDict [
        ("pool_id", VDict [("type", VStr "string"); ("description", VStr "Pool ID")]);
        ("token_in", VDict [("type", VStr "string"); ("description", VStr "Input token")]);
        ("amount_in", VDict [("type", VStr "string"); ("description", VStr "Input amount")]);
        ("user_address", VDict [("type", VStr "string"); ("description", VStr "User address")])]);
      ("required", VList [VStr "pool_id"; VStr "token_in"; VStr "amount_in"; VStr "user_address"])])];
  VDict [
    ("name", VStr "get_user_positions");
    ("description", VStr "Get user's liquidity positions");
    ("inputSchema", VDict [
      ("type", VStr "object");
      ("properties", VDict [
        ("user_address", VDict [("type", VStr "string"); ("description", VStr "User address")])]);
      ("required", VList [VStr "user_address"])])];
  VDict [
    ("name", VStr "get_defi_stats");
    ("description", VStr "Get DeFi platform statistics");
    ("inputSchema", VDict [("type", VStr "object"); ("properties", VDict [])])];
  VDict [
    ("name", VStr "get_network_info");
    ("description", VStr "Get network information for a specific chain");
    ("inputSchema", VDict [
      ("type", VStr "object");
      ("properties", VDict [
        ("chain", VDict [
          ("type", VStr "string");
          ("description", VStr "Chain name (default: zetachain)")])])])]
].

(** The [tool_*] methods the class defines. *)
Definition zetachain_tool_methods : list string := [
  "tool_create_wallet"; "tool_import_wallet"; "tool_list_wallets";
  "tool_get_balance"; "tool_get_wallet_info";
  "tool_get_supported_chains"; "tool_get_bridge_info";
  "tool_estimate_cross_chain_fee"; "tool_get_cross_chain_status";
  "tool_get_cross_chain_history";
  "tool_send_omnichain_message"; "tool_get_message_status"; "tool_get_messages";
  "tool_get_omnichain_stats"; "tool_get_chain_status";
  "tool_get_proposals"; "tool_get_proposal"; "tool_vote_on_proposal";
  "tool_get_voting_power"; "tool_get_governance_stats";
  "tool_get_pools"; "tool_get_pool_info"; "tool_add_liquidity";
  "tool_remove_liquidity"; "tool_swap_tokens"; "tool_get_user_positions";
  "tool_get_defi_stats";
  "tool_get_network_info"].

Section ZetaChainMCPServer.

Variable C : Type.

(** Every [tool_*] method hands its keyword arguments to a manager (or to
    the chain connection) and returns what it returns: [managers a args]
    is method [a] called as [a( **args )], the binding of the keywords to
    the parameters included. *)
Variable managers : string -> handler C.

(** [ZetaChainConnection.close]. *)
Variable connection_close : C -> outcome unit * C.

Definition ZetaChainMCPServer : subclass C :=
  {| _load_tools := fun _ c => (Ok tt, (zetachain_tools, c));
     tool_method := fun a =>
       if existsb (String.eqb a) zetachain_tool_methods
       then Some (managers a) else None;
     close_collaborators := connection_close |}.

End ZetaChainMCPServer.

Arguments ZetaChainMCPServer {C} managers connection_close.

(** The [name] field of a tool descriptor. *)
Definition descriptor_name (d : value) : value :=
  match d with
  | VDict kvs => dict_get kvs "name" VNone
  | _ => VNone
  end.

(* ===================================================================== *)
(** * Sequences of calls on one server instance *)
(* ===================================================================== *)

(** What a transport adapter can call on the server. *)
Inductive call : Type :=
| CallInitialize
| CallListTools
| CallTool (name arguments : value)
| CallHandleRequest (request : value)
| CallClose.

Definition perform {C} (cls : subclass C) (c : call) (self : MCPServer C) : MCPServer C :=
  match c with
  | CallInitialize => snd (initialize cls self)
  | CallListTools => snd (list_tools self)
  | CallTool name arguments => snd (call_tool cls name arguments self)
  | CallHandleRequest request => snd (handle_request cls request self)
  | CallClose => snd (close cls self)
  end.

Definition perform_all {C} (cls : subclass C) (cs : list call) (self : MCPServer C)
  : MCPServer C :=
  fold_left (fun s c => perform cls c s) cs self.

(* ===================================================================== *)
(** * A test double for the collaborators *)
(* ===================================================================== *)

Module Fixture.

(** An empty wallet store behind [tool_list_wallets]; every other
    collaborator fails with the text [boom]. *)
Definition managers : string -> handler unit :=
  fun a arguments c =>
    if String.eqb a "tool_list_wallets" then
      match arguments with
      | VDict [] =>
          (Ok (VDict [("success", VBool true); ("wallets", VList []);
                      ("count", VInt 0)]), c)
      | _ => (Raise (TypeError "tool_list_wallets() takes no arguments"), c)
      end
    else (Raise (Exn "RuntimeError" "boom"), c).

Definition server : subclass unit :=
  ZetaChainMCPServer managers (fun c => (Ok tt, c)).

Definition fresh : MCPServer unit := new_server tt.

(** One request line, and the request it decodes to. *)
Definition list_line : string :=
  "{" ^^ dquote ^^ "method" ^^ dquote ^^ ": "
      ^^ dquote ^^ "tools/list" ^^ dquote ^^ "}".

(** A decoder for the lines of the examples: the request above, and a
    syntax error on anything else. *)
Definition json_loads (s : string) : value + string :=
  if String.eqb s list_line
  then inl (VDict [("method", VStr "tools/list")])
  else inr "Expecting value: line 1 column 1 (char 0)".

(** The key-value pairs of a request. *)
Definition request (id method : string) (params : list (string * value))
  : list (string * value) :=
  [("jsonrpc", VStr "2.0"); ("id", VStr id); ("method", VStr method);
   ("params", VDict params)].

(** [tools/call] for a name the class has no method for. *)
Definition unknown_params : list (string * value) :=
  [("name", VStr "does_not_exist"); ("arguments", VDict [])].
Definition unknown_call : list (string * value) :=
  request "7" "tools/call" unknown_params.

(** [tools/call] for a tool whose collaborator fails. *)
Definition failing_params : list (string * value) :=
  [("name", VStr "get_pools"); ("arguments", VDict [])].
Definition failing_call : list (string * value) :=
  request "8" "tools/call" failing_params.

(** [tools/call] for a tool that answers. *)
Definition wallets_params : list (string * value) :=
  [("name", VStr "list_wallets")].
Definition wallets_call : list (string * value) :=
  request "9" "tools/call" wallets_params.

(** [tools/call] without a name. *)
Definition nameless_params : list (string * value) := [("arguments", VDict [])].
Definition nameless_call : list (string * value) :=
  request "10" "tools/call" nameless_params.

(** A line that is not JSON, and a blank line. *)
Definition bad_line : string := "{bad" ^^ newline.
Definition blank_line : string := "  " ^^ newline.

End Fixture.

(* ===================================================================== *)
(** * Requests and responses, as the statements below read them *)
(* ===================================================================== *)

(** The three reads at the top of [handle_request]. *)
Definition method_of (d : list (string * value)) : value := dict_get d "method" VNone.
Definition params_of (d : list (string * value)) : value := dict_get d "params" (VDict []).
Definition id_of (d : list (string * value)) : value := dict_get d "id" (VStr "1").

(** The two reads of the [tools/call] branch. *)
Definition name_of (p : list (string * value)) : value := dict_get p "name" VNone.
Definition arguments_of (p : list (string * value)) : value :=
  dict_get p "arguments" (VDict []).

(** [r[key]] when [r] is a dict that has the key. *)
Definition response_field (r : value) (key : string) : option value :=
  match r with
  | VDict kvs => dict_lookup kvs key
  | _ => None
  end.

Definition is_error_object (v : value) : bool :=
  match v with
  | VDict [(k1, VInt _); (k2, VStr _)] =>
      String.eqb k1 "code" && String.eqb k2 "message"
  | _ => false
  end.

(** A response: [jsonrpc], [id], and then either [result] or [error],
    never both. *)
Definition well_formed_response (r : value) : bool :=
  match r with
  | VDict [(k1, VStr v); (k2, _); (k3, body)] =>
      String.eqb k1 "jsonrpc" && String.eqb v "2.0" && String.eqb k2 "id"
      && (String.eqb k3 "result" || (String.eqb k3 "error" && is_error_object body))
  | _ => false
  end.

(** The [result] of a [tools/call]: one text item. *)
Definition text_content (text : string) : value :=
  VDict [("content", VList [VDict [("type", VStr "text"); ("text", VStr text)]])].

(** The two envelopes [call_tool] returns. *)
Definition envelope_success (result : value) : value :=
  VDict [("success", VBool true); ("result", result)].

Definition envelope_failure (message : string) : value :=
  VDict [("success", VBool false); ("error", VStr message)].

(** The loader of a subclass returns normally, whatever it finds. *)
Definition loader_returns {C} (cls : subclass C) : Prop :=
  forall ts c, fst (_load_tools cls ts c) = Ok tt.

(** The registry of [self'] is that of [self]: same descriptors, same
    flag, and the loader was not entered in between. *)
Definition same_registry {C} (self self' : MCPServer C) : Prop :=
  tools self' = tools self
  /\ _initialized self' = _initialized self
  /\ load_calls self' = load_calls self.

(** The first [initialize] took place between [self] and [self']: the
    loader ran once and bound [self.tools]. *)
Definition first_load {C} (cls : subclass C) (self self' : MCPServer C) : Prop :=
  _initialized self = false
  /\ _initialized self' = true
  /\ load_calls self' = S (load_calls self)
  /\ tools self' = fst (snd (_load_tools cls (tools self) (collaborators self))).

(** The names of the descriptors of [zetachain_tools], in order. *)
Definition zetachain_tool_names : list string := [
  "create_wallet"; "import_wallet"; "list_wallets"; "get_balance"; "get_wallet_info";
  "get_supported_chains"; "get_bridge_info"; "estimate_cross_chain_fee";
  "get_cross_chain_status"; "get_cross_chain_history";
  "send_omnichain_message"; "get_message_status"; "get_messages";
  "get_omnichain_stats"; "get_chain_status";
  "get_proposals"; "get_proposal"; "vote_on_proposal"; "get_voting_power";
  "get_governance_stats";
  "get_pools"; "get_pool_info"; "add_liquidity"; "remove_liquidity"; "swap_tokens";
  "get_user_positions"; "get_defi_stats";
  "get_network_info"].

(** No string occurs twice. *)
Fixpoint distinct (l : list string) : bool :=
  match l with
  | [] => true
  | x :: rest => negb (existsb (String.eqb x) rest) && distinct rest
  end.

(* ===================================================================== *)
(** * JSON data *)
(* ===================================================================== *)

(** A value made of JSON data only: no opaque object inside.  Everything
    [json.loads] builds is of this kind. *)
Fixpoint serializable (v : value) : bool :=
  match v with
  | VList xs => forallb serializable xs
  | VDict kvs => forallb (fun kv => serializable (snd kv)) kvs
  | VObj _ => false
  | _ => true
  end.

(** Induction over values, with the hypothesis for every element of a
    list and for every value of a dict. *)
Section ValueInduction.

Variable P : value -> Prop.

Hypothesis HNone : P VNone.
Hypothesis HBool : forall b, P (VBool b).
Hypothesis HInt : forall n, P (VInt n).
Hypothesis HFloat : forall f, P (VFloat f).
Hypothesis HStr : forall s, P (VStr s).
Hypothesis HList : forall xs, Forall P xs -> P (VList xs).
Hypothesis HDict : forall kvs, Forall (fun kv => P (snd kv)) kvs -> P (VDict kvs).
Hypothesis HObj : forall c, P (VObj c).

Fixpoint value_induction (v : value) : P v :=
  match v with
  | VNone => HNone
  | VBool b => HBool b
  | VInt n => HInt n
  | VFloat f => HFloat f
  | VStr s => HStr s
  | VList xs =>
      HList xs
        ((fix all (l : list value) : Forall P l :=
            match l with
            | [] => Forall_nil P
            | x :: rest => Forall_cons x (value_induction x) (all rest)
            end) xs)
  | VDict kvs =>
      HDict kvs
        ((fix all (l : list (string * value)) : Forall (fun kv => P (snd kv)) l :=
            match l with
            | [] => Forall_nil _
            | kv :: rest =>
                Forall_cons (P := fun kv => P (snd kv)) kv
                  (value_induction (snd kv)) (all rest)
            end) kvs)
  | VObj c => HObj c
  end.

End ValueInduction.

From Stdlib Require Import Permutation.

Arguments log_unexpected {C} e self.

(* ===================================================================== *)
(** * More of Python's built-ins *)
(* ===================================================================== *)

(** [str.lower] on one code point below 256: the ASCII capitals and the
    Latin-1 capitals (all of U+00C0..U+00DE but the multiplication sign). *)
Definition lower_char (c : ascii) : ascii :=
  let n := nat_of_ascii c in
  if (Nat.leb 65 n && Nat.leb n 90)
     || (Nat.leb 192 n && Nat.leb n 222 && negb (Nat.eqb n 215))
  then ascii_of_nat (n + 32) else c.

(** [str.lower]. *)
Fixpoint lower (s : string) : string :=
  match s with
  | EmptyString => ""
  | String c rest => String (lower_char c) (lower rest)
  end.

(** [s.startswith(prefix)]. *)
Fixpoint startswith (prefix s : string) : bool :=
  match prefix, s with
  | EmptyString, _ => true
  | String _ _, EmptyString => false
  | String a p, String b t => Ascii.eqb a b && startswith p t
  end.

(** [s[n:]]. *)
Fixpoint drop (n : nat) (s : string) : string :=
  match n, s with
  | O, _ => s
  | S _, EmptyString => ""
  | S k, String _ rest => drop k rest
  end.

(** The truth value of a Python value: [None], [False], zero, and the
    empty string, list and dict are false. *)
Definition py_truthy (v : value) : bool :=
  match v with
  | VNone => false
  | VBool b => b
  | VInt n => negb (Z.eqb n 0)
  | VFloat (FFinite r) => negb (String.eqb r "0.0" || String.eqb r "-0.0")
  | VFloat _ => true
  | VStr s => truthy s
  | VList xs => match xs with [] => false | _ => true end
  | VDict kvs => match kvs with [] => false | _ => true end
  | VObj _ => true
  end.

(* ===================================================================== *)
(** * [config.py]: [ZetaChainConfig] *)
(* ===================================================================== *)

Module config.

(** The table [__post_init__] binds to [supported_chains] when the
    constructor was given none. *)
Definition default_supported_chains : list (string * value) := [
  ("zetachain", VDict [
     ("name", VStr "ZetaChain Athens Testnet");
     ("chain_id", VInt 7001);
     ("rpc_url", VStr "https://zetachain-athens-evm.blockpi.network/v1/rpc/public");
     ("explorer", VStr "https://explorer.zetachain.com");
     ("native_currency", VStr "ZETA")]);
  ("ethereum", VDict [
     ("name", VStr "Ethereum Sepolia");
     ("chain_id", VInt 11155111);
     ("rpc_url", VStr "https://eth-sepolia.public.blastapi.io");
     ("explorer", VStr "https://sepolia.etherscan.io");
     ("native_currency", VStr "ETH")]);
  ("bsc", VDict [
     ("name", VStr "BSC Testnet");
     ("chain_id", VInt 97);
     ("rpc_url", VStr "https://data-seed-prebsc-1-s1.binance.org:8545");
     ("explorer", VStr "https://testnet.bscscan.com");
     ("native_currency", VStr "BNB")]);
  ("polygon", VDict [
     ("name", VStr "Polygon Mumbai");
     ("chain_id", VInt 80001);
     ("rpc_url", VStr "https://rpc.ankr.com/polygon_mumbai");
     ("explorer", VStr "https://mumbai.polygonscan.com");
     ("native_currency", VStr "MATIC")]);
  ("avalanche", VDict [
     ("name", VStr "Avalanche Fuji");
     ("chain_id", VInt 43113);
     ("rpc_url", VStr "https://api.avax-test.network/ext/bc/C/rpc");
     ("explorer", VStr "https://testnet.snowtrace.io");
     ("native_currency", VStr "AVAX")]);
  ("optimism", VDict [
     ("name", VStr "Optimism Goerli");
     ("chain_id", VInt 420);
     ("rpc_url", VStr "https://goerli.optimism.io");
     ("explorer", VStr "https://goerli-optimism.etherscan.io");
     ("native_currency", VStr "ETH")]);
  ("arbitrum", VDict [
     ("name", VStr "Arbitrum Goerli");
     ("chain_id", VInt 421613);
     ("rpc_url", VStr "https://goerli-rollup.arbitrum.io/rpc");
     ("explorer", VStr "https://goerli.arbiscan.io");
     ("native_currency", VStr "ETH")])].

(** The fields of a configuration, once constructed. *)
Record ZetaChainConfig : Type := {
  network : string;
  rpc_url : string;
  gateway_address : string;
  supported_chains : list (string * value);
  timeout : Z;
  wallet_storage_path : string
}.

(** [ZetaChainConfig()] with no argument and no environment variable. *)
Definition default : ZetaChainConfig :=
  {| network := "athens";
     rpc_url := "https://zetachain-athens-evm.blockpi.network/v1/rpc/public";
     gateway_address := "0x6c533f7fe93fae114d0954697069df33c9b74fd7";
     supported_chains := default_supported_chains;
     timeout := 15000;
     wallet_storage_path := "./data/wallets" |}.

(** The keys of [default_supported_chains]. *)
Definition default_chain_names : list string :=
  ["zetachain"; "ethereum"; "bsc"; "polygon"; "avalanche"; "optimism"; "arbitrum"].

(** [self.supported_chains.get(chain_name.lower())]. *)
Definition get_chain_config (self : ZetaChainConfig) (chain_name : string) : value :=
  dict_get (supported_chains self) (lower chain_name) VNone.

(** [chain_config.get(key) if chain_config else None]. *)
Definition get_field (self : ZetaChainConfig) (chain_name key : string) : outcome value :=
  let chain_config := get_chain_config self chain_name in
  if py_truthy chain_config then get_method chain_config key VNone else Ok VNone.

Definition get_rpc_url (self : ZetaChainConfig) (chain_name : string) : outcome value :=
  get_field self chain_name "rpc_url".

Definition get_explorer_url (self : ZetaChainConfig) (chain_name : string) : outcome value :=
  get_field self chain_name "explorer".

End config.

(* ===================================================================== *)
(** * [utils/validation.py] *)
(* ===================================================================== *)

Module validation.

Definition valid_chains : list string :=
  ["zetachain"; "ethereum"; "bsc"; "polygon"; "bitcoin"].

(** [chain_name.lower() in valid_chains]. *)
Definition validate_chain_name (chain_name : string) : bool :=
  existsb (String.eqb (lower chain_name)) valid_chains.

(** The character class [[0-9a-fA-F]]. *)
Definition is_hex (c : ascii) : bool :=
  let n := nat_of_ascii c in
  (Nat.leb 48 n && Nat.leb n 57) || (Nat.leb 97 n && Nat.leb n 102)
  || (Nat.leb 65 n && Nat.leb n 70).

(** Every character is a hex digit. *)
Fixpoint all_hex (s : string) : bool :=
  match s with
  | EmptyString => true
  | String c rest => is_hex c && all_hex rest
  end.

(** The longest run of hex digits at the head of [s]: its length, and
    what follows it. *)
Fixpoint hex_run (s : string) : nat * string :=
  match s with
  | EmptyString => (0, "")
  | String c rest =>
      if is_hex c then let '(k, tail) := hex_run rest in (S k, tail)
      else (0, s)
  end.

(** [bool(re.match(r'^[0-9a-fA-F]+$', s))]: one hex digit or more from the
    start, then [$], which holds at the end of the text and also just
    before a line feed that ends it.  The run is greedy; giving digits
    back cannot help, as a digit is neither the end nor a line feed. *)
Definition match_hex (s : string) : bool :=
  let '(k, tail) := hex_run s in
  Nat.leb 1 k && (String.eqb tail "" || String.eqb tail newline).

(** [validate_transaction_hash] on a [str]. *)
Definition validate_transaction_hash (tx_hash : string) : bool :=
  let tx_hash := if startswith "0x" tx_hash then drop 2 tx_hash else tx_hash in
  if negb (Nat.eqb (String.length tx_hash) 64) then false
  else match_hex tx_hash.

Section Address.

(** [eth_utils.is_address], which is not part of this repository. *)
Variable is_address : string -> outcome bool.

Definition validate_address (address : string) : bool :=
  match is_address address with
  | Ok b => b
  | Raise _ => false
  end.

Definition normalize_address (address : string) : string :=
  match is_address address with
  | Ok true => address
  | Ok false => ""
  | Raise _ => ""
  end.

End Address.

End validation.

(* ===================================================================== *)
(** * [tools/cross_chain.py]: [CrossChainManager.get_bridge_info] *)
(* ===================================================================== *)

Module cross_chain.

(** Sequencing of steps that may raise. *)
Definition and_then {A B} (o : outcome A) (k : A -> outcome B) : outcome B :=
  match o with
  | Ok a => k a
  | Raise e => Raise e
  end.

(** The [try] block of [get_bridge_info]; the dict display evaluates its
    four [get] calls from top to bottom. *)
Definition bridge_info (config : config.ZetaChainConfig) (from_chain to_chain : string)
  : outcome value :=
  let from_config := config.get_chain_config config from_chain in
  let to_config := config.get_chain_config config to_chain in
  if negb (py_truthy from_config) || negb (py_truthy to_config) then
    Ok (VDict [("error", VStr "Unsupported chain pair")])
  else
    and_then (get_method from_config "chain_id" VNone) (fun from_id =>
    and_then (get_method from_config "native_currency" VNone) (fun from_currency =>
    and_then (get_method to_config "chain_id" VNone) (fun to_id =>
    and_then (get_method to_config "native_currency" VNone) (fun to_currency =>
    Ok (VDict [
      ("success", VBool true);
      ("bridgeInfo", VDict [
         ("fromChain", VDict [("name", VStr from_chain); ("chainId", from_id);
                              ("nativeCurrency", from_currency)]);
         ("toChain", VDict [("name", VStr to_chain); ("chainId", to_id);
                            ("nativeCurrency", to_currency)]);
         ("bridgeAddress", VStr (config.gateway_address config));
         ("estimatedTime", VStr "5-10 minutes");
         ("fees", VDict [("gas", VStr "0.001 ZETA"); ("bridge", VStr "0.0001 ZETA")]);
         ("supportedTokens",
          VList [VStr "native"; VStr "USDC"; VStr "USDT"; VStr "WETH"])])]))))).

(** [get_bridge_info]: what it returns, and what it logs. *)
Definition get_bridge_info (config : config.ZetaChainConfig) (from_chain to_chain : string)
  : value * list (level * string) :=
  match bridge_info config from_chain to_chain with
  | Ok result => (result, [])
  | Raise e =>
      (VDict [("error", VStr (exn_text e))],
       [(ERROR, "Error getting bridge info: " ^^ exn_text e)])
  end.

End cross_chain.

(* ===================================================================== *)
(** * [tools/governance.py]: [GovernanceManager] *)
(* ===================================================================== *)

Module governance.

(** The dict under the key [votes] of a proposal.  The counts start as
    integers; a vote adds to them whatever number it carries, so they are
    values. *)
Record tally : Type := { yes : value; no : value; abstain : value }.

(** A proposal dict, one field per key; [votePercentages] is the key that
    [get_proposal] adds, three formatted texts. *)
Record proposal : Type := {
  id : string;
  title : string;
  description : string;
  status : string;
  startTime : Z;
  endTime : Z;
  proposer : string;
  votes : tally;
  totalVotingPower : value;
  votePercentages : option (string * string * string)
}.

(** The manager: [self.proposals], in insertion order, and what went to
    the module's logger. *)
Record GovernanceManager : Type := {
  proposals : list (string * proposal);
  log : list (level * string)
}.

(** [_initialize_mock_data]; [t1] .. [t4] are the four readings of
    [int(time.time())] it takes, in order. *)
Definition _initialize_mock_data (t1 t2 t3 t4 : Z) : list (string * proposal) :=
  [("prop_001",
    {| id := "prop_001";
       title := "Increase ZETA Staking Rewards";
       description := "Proposal to increase staking rewards from 10% to 12% APY";
       status := "voting";
       startTime := (t1 - 86400)%Z;
       endTime := (t2 + 604800)%Z;
       proposer := "0x1234567890123456789012345678901234567890";
       votes := {| yes := VInt 1500000; no := VInt 200000; abstain := VInt 100000 |};
       totalVotingPower := VInt 1800000;
       votePercentages := None |});
   ("prop_002",
    {| id := "prop_002";
       title := "Add New Cross-Chain Bridge";
       description := "Proposal to add support for Avalanche bridge";
       status := "passed";
       startTime := (t3 - 1209600)%Z;
       endTime := (t4 - 259200)%Z;
       proposer := "0x2345678901234567890123456789012345678901";
       votes := {| yes := VInt 2000000; no := VInt 500000; abstain := VInt 200000 |};
       totalVotingPower := VInt 2700000;
       votePercentages := None |})].

(** [GovernanceManager.__init__]. *)
Definition new_manager (t1 t2 t3 t4 : Z) : GovernanceManager :=
  {| proposals := _initialize_mock_data t1 t2 t3 t4; log := [] |}.

(** [self.proposals.get(key)]. *)
Fixpoint lookup (ps : list (string * proposal)) (key : string) : option proposal :=
  match ps with
  | [] => None
  | (k, p) :: rest => if String.eqb k key then Some p else lookup rest key
  end.

(** The proposal under [key] changed in place. *)
Fixpoint update (ps : list (string * proposal)) (key : string)
  (f : proposal -> proposal) : list (string * proposal) :=
  match ps with
  | [] => []
  | (k, p) :: rest =>
      if String.eqb k key then (k, f p) :: rest else (k, p) :: update rest key f
  end.

(** A proposal as the dict it is. *)
Definition proposal_dict (p : proposal) : value :=
  VDict ([("id", VStr (id p)); ("title", VStr (title p));
          ("description", VStr (description p)); ("status", VStr (status p));
          ("startTime", VInt (startTime p)); ("endTime", VInt (endTime p));
          ("proposer", VStr (proposer p));
          ("votes", VDict [("yes", yes (votes p)); ("no", no (votes p));
                           ("abstain", abstain (votes p))]);
          ("totalVotingPower", totalVotingPower p)]
         ++ match votePercentages p with
            | Some (y, n, a) =>
                [("votePercentages",
                  VDict [("yes", VStr y); ("no", VStr n); ("abstain", VStr a)])]
            | None => []
            end).

(** [list.sort(key=startTime, reverse=True)]: newest first, and proposals
    of equal start time in the order they had. *)
Fixpoint insert (p : proposal) (sorted : list proposal) : list proposal :=
  match sorted with
  | [] => [p]
  | q :: rest =>
      if Z.ltb (startTime p) (startTime q) then q :: insert p rest
      else p :: q :: rest
  end.

Definition sort (ps : list proposal) : list proposal := fold_right insert [] ps.

(** The proposals [get_proposals] lists: all of them when [status] is
    [None] or empty, else those of that status; newest first. *)
Definition listed (status_filter : option string) (ps : list (string * proposal))
  : list proposal :=
  let all := map snd ps in
  let kept :=
    match status_filter with
    | Some s => if truthy s then filter (fun p => String.eqb (status p) s) all else all
    | None => all
    end in
  sort kept.

Definition get_proposals (status_filter : option string) (self : GovernanceManager)
  : value :=
  let ps := listed status_filter (proposals self) in
  VDict [("success", VBool true); ("proposals", VList (map proposal_dict ps));
         ("count", VInt (Z.of_nat (length ps)))].

Section Manager.

(** [validate_address], which rests on [eth_utils]: whether it takes the
    argument for an address. *)
Variable validate_address : value -> bool.

(** [a + b] where a float or something that is not a number takes part:
    float arithmetic, which rounds and can raise [OverflowError], or a
    [TypeError]. *)
Variable other_add : value -> value -> outcome value.

(** Lines 91 to 97 of [get_proposal] on the three counts: the sum, and
    when it is positive the three texts of [f"{... * 100:.1f}%"]; float
    arithmetic, and an exception when the counts do not add or compare. *)
Variable percentages : tally -> outcome (option (string * string * string)).

(** An [int], or a [bool], which is an [int]. *)
Definition as_int (v : value) : option Z :=
  match v with
  | VInt n => Some n
  | VBool true => Some 1%Z
  | VBool false => Some 0%Z
  | _ => None
  end.

(** [a + b]: exact on integers. *)
Definition add (a b : value) : outcome value :=
  match as_int a, as_int b with
  | Some x, Some y => Ok (VInt (x + y))
  | _, _ => other_add a b
  end.

Definition error (message : string) : value := VDict [("error", VStr message)].

Definition add_log (l : level) (msg : string) (self : GovernanceManager)
  : GovernanceManager :=
  {| proposals := proposals self; log := log self ++ [(l, msg)] |}.

Definition set_proposals (ps : list (string * proposal)) (self : GovernanceManager)
  : GovernanceManager :=
  {| proposals := ps; log := log self |}.

(** [proposal_id not in self.proposals], then [self.proposals[proposal_id]]:
    the key and its proposal; a list or a dict cannot be hashed; any
    other value that is not a string is no key of the dict. *)
Definition find (ps : list (string * proposal)) (proposal_id : value)
  : outcome (option (string * proposal)) :=
  match proposal_id with
  | VStr key =>
      Ok (match lookup ps key with
          | Some p => Some (key, p)
          | None => None
          end)
  | VList _ => Raise (TypeError "unhashable type: 'list'")
  | VDict _ => Raise (TypeError "unhashable type: 'dict'")
  | _ => Ok None
  end.

Definition set_percentages (texts : option (string * string * string)) (p : proposal)
  : proposal :=
  match texts with
  | Some _ =>
      {| id := id p; title := title p; description := description p;
         status := status p; startTime := startTime p; endTime := endTime p;
         proposer := proposer p; votes := votes p;
         totalVotingPower := totalVotingPower p;
         votePercentages := texts |}
  | None => p
  end.

Definition get_proposal (proposal_id : value) (self : GovernanceManager)
  : value * GovernanceManager :=
  let failed e :=
    (error (exn_text e), add_log ERROR ("Error getting proposal: " ^^ exn_text e) self) in
  match find (proposals self) proposal_id with
  | Raise e => failed e
  | Ok None => (error "Proposal not found", self)
  | Ok (Some (key, p)) =>
      match percentages (votes p) with
      | Raise e => failed e
      | Ok texts =>
          (VDict [("success", VBool true);
                  ("proposal", proposal_dict (set_percentages texts p))],
           set_proposals (update (proposals self) key (set_percentages texts)) self)
      end
  end.

Definition vote_options : list string := ["yes"; "no"; "abstain"].

(** [vote in ["yes", "no", "abstain"]]: the option, when it is one. *)
Definition option_of (vote : value) : option string :=
  match vote with
  | VStr v => if existsb (String.eqb v) vote_options then Some v else None
  | _ => None
  end.

(** [proposal["votes"][vote]] for one of the three options, and its
    assignment. *)
Definition count (vote : string) (p : proposal) : value :=
  if String.eqb vote "yes" then yes (votes p)
  else if String.eqb vote "no" then no (votes p)
  else abstain (votes p).

Definition set_count (vote : string) (c : value) (p : proposal) : proposal :=
  let v := votes p in
  let v' :=
    if String.eqb vote "yes" then {| yes := c; no := no v; abstain := abstain v |}
    else if String.eqb vote "no" then {| yes := yes v; no := c; abstain := abstain v |}
    else {| yes := yes v; no := no v; abstain := c |} in
  {| id := id p; title := title p; description := description p;
     status := status p; startTime := startTime p; endTime := endTime p;
     proposer := proposer p; votes := v';
     totalVotingPower := totalVotingPower p;
     votePercentages := votePercentages p |}.

Definition set_total (total : value) (p : proposal) : proposal :=
  {| id := id p; title := title p; description := description p;
     status := status p; startTime := startTime p; endTime := endTime p;
     proposer := proposer p; votes := votes p;
     totalVotingPower := total;
     votePercentages := votePercentages p |}.

(** [vote_on_proposal]; [current_time] is the reading of
    [int(time.time())] it takes.  The two [+=] are two steps: when the
    second raises, the first has already changed the proposal. *)
Definition vote_on_proposal (current_time : Z)
  (proposal_id voter_address vote voting_power : value)
  (self : GovernanceManager) : value * GovernanceManager :=
  let failed e s :=
    (error (exn_text e), add_log ERROR ("Error voting on proposal: " ^^ exn_text e) s) in
  match find (proposals self) proposal_id with
  | Raise e => failed e self
  | Ok None => (error "Proposal not found", self)
  | Ok (Some (key, p)) =>
      if negb (validate_address voter_address) then
        (error "Invalid voter address", self)
      else
        match option_of vote with
        | None => (error "Invalid vote option", self)
        | Some v =>
            if Z.ltb (endTime p) current_time then
              (error "Voting period has ended", self)
            else if Z.ltb current_time (startTime p) then
              (error "Voting period has not started", self)
            else
              match add (count v p) voting_power with
              | Raise e => failed e self
              | Ok c =>
                  let self1 :=
                    set_proposals (update (proposals self) key (set_count v c)) self in
                  match add (totalVotingPower p) voting_power with
                  | Raise e => failed e self1
                  | Ok total =>
                      (VDict [("success", VBool true);
                              ("message", VStr "Vote cast successfully");
                              ("proposalId", proposal_id); ("vote", vote);
                              ("votingPower", voting_power)],
                       add_log INFO
                         ("Vote cast: " ^^ py_str voter_address ^^ " voted "
                            ^^ py_str vote ^^ " on " ^^ py_str proposal_id)
                         (set_proposals
                            (update (proposals self1) key (set_total total)) self1))
                  end
              end
        end
  end.

(** The calls a client can make, and their effect on the manager. *)
Inductive operation : Type :=
| Vote (current_time : Z) (proposal_id voter_address vote voting_power : value)
| GetProposal (proposal_id : value)
| GetProposals (status_filter : option string).

Definition apply (op : operation) (self : GovernanceManager) : GovernanceManager :=
  match op with
  | Vote t i a v w => snd (vote_on_proposal t i a v w self)
  | GetProposal i => snd (get_proposal i self)
  | GetProposals _ => self
  end.

Definition apply_all (ops : list operation) (self : GovernanceManager)
  : GovernanceManager :=
  fold_left (fun s op => apply op s) ops self.

(** A vote that carries an integer. *)
Definition integer_vote (op : operation) : Prop :=
  match op with
  | Vote _ _ _ _ w => as_int w <> None
  | _ => True
  end.

End Manager.

(** The counts of a proposal are integers, and the total is their sum. *)
Definition consistent (p : proposal) : Prop :=
  exists y n a,
    yes (votes p) = VInt y /\ no (votes p) = VInt n /\ abstain (votes p) = VInt a
    /\ totalVotingPower p = VInt (y + n + a).

(** A proposal after both assignments of an accepted vote. *)
Definition voted (vote : string) (new_count new_total : value) (p : proposal)
  : proposal :=
  set_total new_total (set_count vote new_count p).

(** The count of an option among three integers. *)
Definition chosen (vote : string) (y n a : Z) : Z :=
  if String.eqb vote "yes" then y else if String.eqb vote "no" then n else a.

(** Newest first. *)
Fixpoint newest_first (ps : list proposal) : Prop :=
  match ps with
  | [] => True
  | p :: rest => Forall (fun q => startTime q <= startTime p)%Z rest /\ newest_first rest
  end.

End governance.

(* ===================================================================== *)
(** * [http_server.py]: the HTTP endpoints *)
(* ===================================================================== *)

Module http_server.

(** The pydantic model of the body of [POST /mcp]. *)
Record MCPRequest : Type := {
  jsonrpc : string;
  id : string;
  method : string;
  params : list (string * value)
}.

(** [request.dict()]: the fields in the order of their declaration. *)
Definition dict (request : MCPRequest) : list (string * value) :=
  [("jsonrpc", VStr (jsonrpc request)); ("id", VStr (id request));
   ("method", VStr (method request)); ("params", VDict (params request))].

(** What an endpoint function does: it returns a body, which FastAPI sends
    with status 200, or it raises [HTTPException]. *)
Inductive reply : Type :=
| Return (body : value)
| HTTPException (status_code : Z) (detail : string).

Section App.

Variable C : Type.
Variable managers : string -> handler C.
Variable connection_close : C -> outcome unit * C.

(** The class of the one server instance. *)
Definition Server : subclass C := ZetaChainMCPServer managers connection_close.

(** The module-level state: the global [zetachain_mcp_server], [None]
    until the application has started, and what went to the module's
    logger. *)
Record app : Type := {
  zetachain_mcp_server : option (MCPServer C);
  http_log : list (level * string)
}.

Definition not_started : app :=
  {| zetachain_mcp_server := None; http_log := [] |}.

Definition with_server (self : MCPServer C) (g : app) : app :=
  {| zetachain_mcp_server := Some self; http_log := http_log g |}.

Definition not_initialized : reply :=
  HTTPException 503 "MCP server not initialized".

(** [lifespan], up to its [yield]: the global is bound to a new server,
    which is then initialized. *)
Definition startup (c : C) (g : app) : outcome unit * app :=
  match initialize Server (new_server c) with
  | (Ok _, self) => (Ok tt, with_server self g)
  | (Raise e, self) => (Raise e, with_server self g)
  end.

(** [lifespan], after its [yield]. *)
Definition shutdown (g : app) : outcome unit * app :=
  match zetachain_mcp_server g with
  | None => (Raise (AttributeError "'NoneType' object has no attribute 'close'"), g)
  | Some self =>
      match close Server self with
      | (r, self') => (r, with_server self' g)
      end
  end.

(** [GET /health]. *)
Definition health_check (g : app) : reply :=
  Return (VDict [("status", VStr "healthy");
                 ("service", VStr "zetachain-mcp-server");
                 ("server_initialized",
                  VBool (match zetachain_mcp_server g with
                         | Some _ => true
                         | None => false
                         end))]).

(** [GET /]. *)
Definition root : reply :=
  Return (VDict [("service", VStr "ZetaChain MCP HTTP Server");
                 ("version", VStr "1.0.0");
                 ("description",
                  VStr "HTTP wrapper for ZetaChain Model Context Protocol server");
                 ("endpoints",
                  VDict [("health", VStr "/health"); ("tools", VStr "/tools");
                         ("mcp", VStr "/mcp"); ("docs", VStr "/docs")])]).

(** [POST /mcp]. *)
Definition handle_mcp_request (request : MCPRequest) (g : app) : reply * app :=
  match zetachain_mcp_server g with
  | None => (not_initialized, g)
  | Some self =>
      match handle_request Server (VDict (dict request)) self with
      | (Ok response, self') => (Return response, with_server self' g)
      | (Raise e, self') =>
          (Return (response_error (VStr (id request)) (-32603) (exn_text e)),
           {| zetachain_mcp_server := Some self';
              http_log := http_log g
                ++ [(ERROR, "Error handling MCP request: " ^^ exn_text e)] |})
      end
  end.

(** [GET /tools]. *)
Definition list_tools_http (g : app) : reply * app :=
  match zetachain_mcp_server g with
  | None => (not_initialized, g)
  | Some self =>
      match list_tools self with
      | (Ok (VList tools), self') =>
          (Return (VDict [("tools", VList tools);
                          ("count", VInt (Z.of_nat (length tools)))]),
           with_server self' g)
      | (Ok other, self') =>
          (HTTPException 500
             ("object of type '" ^^ type_name other ^^ "' has no len()"),
           with_server self' g)
      | (Raise e, self') => (HTTPException 500 (exn_text e), with_server self' g)
      end
  end.

(** [POST /tools/call]. *)
Definition call_tool_http (tool_name : string) (args : list (string * value)) (g : app)
  : reply * app :=
  match zetachain_mcp_server g with
  | None => (not_initialized, g)
  | Some self =>
      match call_tool Server (VStr tool_name) (VDict args) self with
      | (Ok result, self') =>
          (Return (VDict [("tool_name", VStr tool_name); ("result", result)]),
           with_server self' g)
      | (Raise e, self') => (HTTPException 500 (exn_text e), with_server self' g)
      end
  end.

(** An endpoint that returns what one [call_tool] returns. *)
Definition call_and_return (tool_name : string) (args : list (string * value)) (g : app)
  : reply * app :=
  match zetachain_mcp_server g with
  | None => (not_initialized, g)
  | Some self =>
      match call_tool Server (VStr tool_name) (VDict args) self with
      | (Ok result, self') => (Return result, with_server self' g)
      | (Raise e, self') => (HTTPException 500 (exn_text e), with_server self' g)
      end
  end.

(** [GET /network/info?chain=]. *)
Definition get_network_info (chain : string) (g : app) : reply * app :=
  call_and_return "get_network_info" [("chain", VStr chain)] g.

(** [GET /chains]. *)
Definition get_supported_chains (g : app) : reply * app :=
  call_and_return "get_supported_chains" [] g.

(** The [try] block of [get_platform_stats]. *)
Definition platform_stats : M C value :=
  bind C (call_tool Server (VStr "get_omnichain_stats") (VDict [])) (fun omnichain_stats =>
  bind C (call_tool Server (VStr "get_governance_stats") (VDict [])) (fun governance_stats =>
  bind C (call_tool Server (VStr "get_defi_stats") (VDict [])) (fun defi_stats =>
  bind C (lift C (get_method omnichain_stats "result" (VDict []))) (fun omnichain =>
  bind C (lift C (get_method governance_stats "result" (VDict []))) (fun governance =>
  bind C (lift C (get_method defi_stats "result" (VDict []))) (fun defi =>
  ret C (VDict [("omnichain", omnichain); ("governance", governance);
                ("defi", defi)]))))))).

(** [GET /stats]. *)
Definition get_platform_stats (g : app) : reply * app :=
  match zetachain_mcp_server g with
  | None => (not_initialized, g)
  | Some self =>
      match platform_stats self with
      | (Ok body, self') => (Return body, with_server self' g)
      | (Raise e, self') => (HTTPException 500 (exn_text e), with_server self' g)
      end
  end.

End App.

Arguments zetachain_mcp_server {C} _.
Arguments http_log {C} _.
Arguments not_started {C}.
Arguments with_server {C} self g.
Arguments startup {C} managers connection_close c g.
Arguments shutdown {C} managers connection_close g.
Arguments health_check {C} g.
Arguments handle_mcp_request {C} managers connection_close request g.
Arguments list_tools_http {C} g.
Arguments call_tool_http {C} managers connection_close tool_name args g.
Arguments call_and_return {C} managers connection_close tool_name args g.
Arguments get_network_info {C} managers connection_close chain g.
Arguments get_supported_chains {C} managers connection_close g.
Arguments platform_stats {C} managers connection_close _.
Arguments get_platform_stats {C} managers connection_close g.
Arguments Server {C} managers connection_close.

End http_server.

(* ===================================================================== *)
(** * More test doubles *)
(* ===================================================================== *)

Module Doubles.

(** A subclass whose loader fails, with one tool that returns a [set] and
    counts its calls. *)
Definition broken : subclass nat :=
  {| _load_tools := fun ts c => (Raise (Exn "RuntimeError" "no tools"), (ts, c));
     tool_method := fun a =>
       if String.eqb a "tool_make_set"
       then Some (fun _ c => (Ok (VObj "set"), S c)) else None;
     close_collaborators := fun c => (Ok tt, c) |}.

Definition fresh : MCPServer nat := new_server 0.

Definition make_set_params : list (string * value) := [("name", VStr "make_set")].
Definition make_set_call : list (string * value) :=
  Fixture.request "20" "tools/call" make_set_params.

(** A request whose [params] is a list. *)
Definition list_params_call : list (string * value) :=
  [("id", VInt 3); ("method", VStr "tools/call"); ("params", VList [VStr "x"])].

(** A decoder that knows one more line: a JSON array. *)
Definition array_line : string := "[1]".
Definition json_loads (s : string) : value + string :=
  if String.eqb s array_line then inl (VList [VInt 1]) else Fixture.json_loads s.

(** An application with the test server of [Fixture], not yet initialized. *)
Definition app : http_server.app unit :=
  http_server.with_server Fixture.fresh http_server.not_started.

Definition connection_close : unit -> outcome unit * unit := fun c => (Ok tt, c).

(** Stand-ins for the address check, for the arithmetic on anything but
    integers, and for the percentages of the governance manager. *)
Definition validate_address (a : value) : bool :=
  match a with
  | VStr s => startswith "0x" s
  | _ => false
  end.
Definition other_add (a b : value) : outcome value :=
  Raise (TypeError "unsupported operand type(s) for +").
Definition percentages (t : governance.tally)
  : outcome (option (string * string * string)) := Ok None.

(** A manager created at time 1000. *)
Definition manager : governance.GovernanceManager :=
  governance.new_manager 1000 1000 1000 1000.

(** A transaction hash of 64 hex digits, and its first 63 digits. *)
Definition digits63 : string :=
  "000000000000000000000000000000000000000000000000000000000000abc".
Definition hash64 : string := digits63 ^^ "d".

(** Two votes and a query. *)
Definition operations : list governance.operation :=
  [governance.Vote 2000 (VStr "prop_001") (VStr "0xabc") (VStr "yes") (VInt 5);
   governance.GetProposal (VStr "prop_001");
   governance.Vote 2000 (VStr "prop_001") (VStr "0xabc") (VStr "no") (VBool true)].

(** A decoder that, like [json.loads], takes the text [NaN] for a float,
    though it is not JSON. *)
Definition nan_line : string := "NaN".
Definition python_loads (s : string) : value + string :=
  if String.eqb s nan_line then inl (VFloat FNan) else Fixture.json_loads s.

End Doubles.

(* ===================================================================== *)
(** * The built-ins on small inputs *)
(* ===================================================================== *)

Example str_of_none : py_str VNone = "None".
Proof. reflexivity. Qed.

Example str_of_string : py_str (VStr "tools/call") = "tools/call".
Proof. reflexivity. Qed.

Example str_of_list : py_str (VList [VStr "a"; VInt 5; VBool true]) = "['a', 5, True]".
Proof. reflexivity. Qed.

Example strip_line : strip ("  {} " ^^ newline) = "{}".
Proof. reflexivity. Qed.

Example strip_blank : strip (" " ^^ newline) = "".
Proof. reflexivity. Qed.

Example dumps_compact :
  json_dumps None (VDict [("id", VNone); ("code", VInt (-32700)); ("l", VList [])])
  = Ok ("{" ^^ dquote ^^ "id" ^^ dquote ^^ ": null, "
            ^^ dquote ^^ "code" ^^ dquote ^^ ": -32700, "
            ^^ dquote ^^ "l" ^^ dquote ^^ ": []}").
Proof. reflexivity. Qed.

Example dumps_indented :
  json_dumps (Some 2) (VList [VInt 1; VList [VBool false]])
  = Ok ("[" ^^ newline ^^ "  1," ^^ newline ^^ "  [" ^^ newline ^^ "    false"
            ^^ newline ^^ "  ]" ^^ newline ^^ "]").
Proof. reflexivity. Qed.

Example dumps_escapes :
  encode_basestring_ascii ("a" ^^ dquote ^^ newline ^^ String "233"%char "")
  = dquote ^^ "a\" ^^ dquote ^^ "\n\u00e9" ^^ dquote.
Proof. reflexivity. Qed.

Example dumps_unserializable :
  json_dumps (Some 2) (envelope_success (VObj "set"))
  = Raise (TypeError "Object of type set is not JSON serializable").
Proof. reflexivity. Qed.

(** A request that is not a dict is outside [handle_request]'s [try]. *)
Example list_request_raises :
  fst (handle_request Fixture.server (VList []) Fixture.fresh)
  = Raise (AttributeError "'list' object has no attribute 'get'").
Proof. reflexivity. Qed.

(** A whole run: a parse error, then a request; both are answered, and
    the transport is closed at the end. *)
Example run_two_lines :
  let '(_, self, stdout) :=
    run Fixture.server Fixture.json_loads
      [Fixture.bad_line; Fixture.list_line ^^ newline] Fixture.fresh in
  (length stdout, length (tools self), _closed (transport self)) = (2, 28, true).
Proof. vm_compute. reflexivity. Qed.
(* ===================================================================== *)
(** * JSON data always serializes *)
(* ===================================================================== *)

Lemma encode_serializable (indent : option nat) (v : value) :
  serializable v = true -> forall level, exists text, encode indent level v = Ok text.
Proof.
  induction v as [ |b|n|f|s|xs IH|kvs IH|c] using value_induction;
    intros Hs level; try (eexists; reflexivity); try discriminate.
  - destruct b; eexists; reflexivity.
  - destruct xs as [|x xs]; [eexists; reflexivity|].
    assert (Hitems : forall l,
               Forall (fun v => serializable v = true ->
                                forall level, exists text, encode indent level v = Ok text) l ->
               forallb serializable l = true ->
               exists ss,
                 (fix items (l : list value) : outcome (list string) :=
                    match l with
                    | [] => Ok []
                    | x :: rest =>
                        match encode indent (S level) x with
                        | Raise e => Raise e
                        | Ok s =>
                            match items rest with
                            | Raise e => Raise e
                            | Ok ss => Ok (s :: ss)
                            end
                        end
                    end) l = Ok ss).
    { induction 1 as [|y l Hy _ IHl]; [now exists []|].
      cbn -[encode]. intros [Hy' Hl]%andb_prop.
      destruct (Hy Hy' (S level)) as (t & ->).
      destruct (IHl Hl) as (ss & ->). now eexists. }
    destruct (Hitems (x :: xs) IH Hs) as (ss & Hss).
    cbn [encode]. unfold encode in Hss |- *. fold encode in Hss |- *.
    rewrite Hss. eexists. reflexivity.
  - destruct kvs as [|kv kvs]; [eexists; reflexivity|].
    assert (Hitems : forall l,
               Forall (fun kv => serializable (snd kv) = true ->
                                 forall level, exists text,
                                     encode indent level (snd kv) = Ok text) l ->
               forallb (fun kv => serializable (snd kv)) l = true ->
               exists ss,
                 (fix items (l : list (string * value)) : outcome (list string) :=
                    match l with
                    | [] => Ok []
                    | (k, x) :: rest =>
                        match encode indent (S level) x with
                        | Raise e => Raise e
                        | Ok s =>
                            match items rest with
                            | Raise e => Raise e
                            | Ok ss => Ok ((encode_basestring_ascii k ^^ ": " ^^ s) :: ss)
                            end
                        end
                    end) l = Ok ss).
    { induction 1 as [|[k y] l Hy _ IHl]; [now exists []|].
      cbn -[encode_basestring_ascii String.append encode].
      intros [Hy' Hl]%andb_prop.
      destruct (Hy Hy' (S level)) as (t & Ht).
      cbn -[encode_basestring_ascii String.append encode] in Ht. rewrite Ht.
      destruct (IHl Hl) as (ss & ->). now eexists. }
    destruct (Hitems (kv :: kvs) IH Hs) as (ss & Hss).
    destruct kv as [k x].
    cbn [encode]. unfold encode in Hss |- *. fold encode in Hss |- *.
    rewrite Hss. eexists. reflexivity.
Qed.

Lemma json_dumps_serializable (indent : option nat) (v : value) :
  serializable v = true -> exists text, json_dumps indent v = Ok text.
Proof. intros Hs. apply encode_serializable, Hs. Qed.

Lemma dict_get_serializable (kvs : list (string * value)) (key : string) (default : value) :
  serializable (VDict kvs) = true ->
  serializable default = true ->
  serializable (dict_get kvs key default) = true.
Proof.
  intros Hk Hd. unfold dict_get.
  destruct (dict_lookup kvs key) as [v|] eqn:Hl; [|exact Hd].
  simpl in Hk. rewrite forallb_forall in Hk.
  induction kvs as [|[k x] kvs IH]; [discriminate|].
  simpl in Hl. destruct (String.eqb k key).
  - injection Hl as <-. apply (Hk (k, x)). now left.
  - apply IH; [|exact Hl]. intros kv Hin. apply Hk. now right.
Qed.

(* ===================================================================== *)
(** * Properties of the dispatcher *)
(* ===================================================================== *)

Section Dispatcher.

Context {C : Type} (cls : subclass C).

Implicit Types (self : MCPServer C) (d p : list (string * value)).

Lemma well_formed_result id result :
  well_formed_response (response_result id result) = true.
Proof. reflexivity. Qed.

Lemma well_formed_error id code message :
  well_formed_response (response_error id code message) = true.
Proof. reflexivity. Qed.

(** On a dict, [handle_request] is the [try] block with its handler. *)
Lemma handle_request_dict d self :
  handle_request cls (VDict d) self =
  match dispatch cls (method_of d) (params_of d) (id_of d) self with
  | (Ok r, self') => (Ok r, self')
  | (Raise e, self') =>
      (Ok (response_error (id_of d) (-32603) (exn_text e)),
       add_log ERROR
         ("Error handling request " ^^ py_str (method_of d) ^^ ": " ^^ exn_text e)
         self')
  end.
Proof.
  unfold handle_request, bind, lift, get_method, try_except.
  fold (method_of d) (params_of d) (id_of d).
  destruct (dispatch cls (method_of d) (params_of d) (id_of d) self) as [[r|e] self'];
    reflexivity.
Qed.

(** A request that is not a dict has no [get]: the first line of
    [handle_request], which is outside the [try], raises. *)
Lemma handle_request_not_dict request self :
  (forall d, request <> VDict d) ->
  handle_request cls request self =
  (Raise (AttributeError ("'" ^^ type_name request ^^ "' object has no attribute 'get'")),
   self).
Proof.
  intros Hnd. destruct request; try reflexivity. now elim (Hnd kvs).
Qed.

(** Whatever the [try] block returns is one of the two response shapes,
    for the [id] it was given. *)
Lemma dispatch_returns_response method params id self r self' :
  dispatch cls method params id self = (Ok r, self') ->
  (exists result, r = response_result id result)
  \/ (exists message, r = response_error id (-32601) message).
Proof.
  unfold dispatch.
  destruct (eq_str method "initialize").
  { unfold bind. destruct (initialize cls self) as [[v|e] s]; [|discriminate].
    intros [= <- <-]. left; eauto. }
  destruct (eq_str method "tools/list").
  { unfold bind, list_tools, get, ret. intros [= <- <-]. left; eauto. }
  destruct (eq_str method "tools/call").
  { unfold bind, lift.
    destruct (get_method params "name" VNone) as [n|e]; [|discriminate].
    destruct (get_method params "arguments" (VDict [])) as [a|e]; [|discriminate].
    destruct (call_tool cls n a self) as [[v|e] s]; [|discriminate].
    destruct (json_dumps (Some 2) v) as [t|e]; [|discriminate].
    intros [= <- <-]. left; eauto. }
  unfold ret. intros [= <- <-]. right; eauto.
Qed.


(* ------------------------------------------------------------------- *)
(** ** The tool invoker *)

(** No method of that name: [call_tool] raises before it enters its own
    [try], and [self] is as it was. *)
Lemma call_tool_unknown name arguments self :
  tool_method cls ("tool_" ^^ py_str name) = None ->
  call_tool cls name arguments self
  = (Raise (ValueError ("Tool '" ^^ py_str name ^^ "' not found")), self).
Proof. unfold call_tool. now intros ->. Qed.

(** A bound method: its result is wrapped, its exception too. *)
Lemma call_tool_known name arguments self h :
  tool_method cls ("tool_" ^^ py_str name) = Some h ->
  call_tool cls name arguments self =
  match h arguments (collaborators self) with
  | (Ok result, c) => (Ok (envelope_success result), set_collaborators c self)
  | (Raise e, c) =>
      (Ok (envelope_failure (exn_text e)),
       add_log ERROR ("Error in tool " ^^ py_str name ^^ ": " ^^ exn_text e)
         (set_collaborators c self))
  end.
Proof.
  unfold call_tool. intros ->.
  unfold try_except, bind, call_handler.
  destruct (h arguments (collaborators self)) as [[result|e] c]; reflexivity.
Qed.

(** [call_tool] returns an envelope or raises the [ValueError]. *)
Lemma call_tool_cases name arguments self :
  (exists result c,
      call_tool cls name arguments self
      = (Ok (envelope_success result), set_collaborators c self))
  \/ (exists e c,
      call_tool cls name arguments self
      = (Ok (envelope_failure (exn_text e)),
         add_log ERROR ("Error in tool " ^^ py_str name ^^ ": " ^^ exn_text e)
           (set_collaborators c self)))
  \/ call_tool cls name arguments self
     = (Raise (ValueError ("Tool '" ^^ py_str name ^^ "' not found")), self).
Proof.
  destruct (tool_method cls ("tool_" ^^ py_str name)) as [h|] eqn:Hh.
  - rewrite (call_tool_known _ _ _ _ Hh).
    destruct (h arguments (collaborators self)) as [[result|e] c]; eauto 6.
  - right; right. now apply call_tool_unknown.
Qed.

(** The failure envelope always serializes; this is its text. *)
Lemma dumps_envelope_failure message :
  json_dumps (Some 2) (envelope_failure message)
  = Ok ("{" ^^ newline ^^ "  " ^^ dquote ^^ "success" ^^ dquote ^^ ": false,"
            ^^ newline ^^ "  " ^^ dquote ^^ "error" ^^ dquote ^^ ": "
            ^^ encode_basestring_ascii message ^^ newline ^^ "}").
Proof. reflexivity. Qed.

(** The [tools/call] branch of the [try] block, step by step. *)
Lemma dispatch_tools_call d p self :
  method_of d = VStr "tools/call" ->
  params_of d = VDict p ->
  dispatch cls (method_of d) (params_of d) (id_of d) self =
  match call_tool cls (name_of p) (arguments_of p) self with
  | (Ok envelope, self') =>
      match json_dumps (Some 2) envelope with
      | Ok text => (Ok (response_result (id_of d) (text_content text)), self')
      | Raise e => (Raise e, self')
      end
  | (Raise e, self') => (Raise e, self')
  end.
Proof.
  intros -> ->. unfold dispatch, bind, lift, ret; simpl.
  fold (name_of p) (arguments_of p).
  destruct (call_tool cls (name_of p) (arguments_of p) self) as [[v|e] s]; [|reflexivity].
  destruct (json_dumps (Some 2) v); reflexivity.
Qed.

(** A [tools/call] for a name without a method: the [ValueError] leaves
    [call_tool] and is answered at the boundary of the dispatcher. *)
Lemma tools_call_unknown d p self :
  method_of d = VStr "tools/call" ->
  params_of d = VDict p ->
  tool_method cls ("tool_" ^^ py_str (name_of p)) = None ->
  handle_request cls (VDict d) self
  = (Ok (response_error (id_of d) (-32603)
           ("Tool '" ^^ py_str (name_of p) ^^ "' not found")),
     add_log ERROR
       ("Error handling request tools/call: Tool '" ^^ py_str (name_of p) ^^ "' not found")
       self).
Proof.
  intros Hm Hp Hnone.
  rewrite handle_request_dict, (dispatch_tools_call d p self Hm Hp).
  rewrite (call_tool_unknown _ _ _ Hnone), Hm. reflexivity.
Qed.


(** On a request dict [handle_request] returns, and what it returns is
    one of the two response shapes for the [id] of the request. *)
Lemma handle_request_returns d self :
  exists response self',
    handle_request cls (VDict d) self = (Ok response, self')
    /\ ((exists result, response = response_result (id_of d) result)
        \/ (exists code message, response = response_error (id_of d) code message)).
Proof.
  rewrite handle_request_dict.
  destruct (dispatch cls (method_of d) (params_of d) (id_of d) self)
    as [[r|e] s] eqn:Hd.
  - exists r, s. split; [reflexivity|].
    destruct (dispatch_returns_response _ _ _ _ _ _ Hd) as [[x ->]|[m ->]]; eauto.
  - eexists _, _. split; [reflexivity|]. right; eauto.
Qed.

Lemma eq_str_false v s : v <> VStr s -> eq_str v s = false.
Proof.
  destruct v; try reflexivity. simpl. intros Hne.
  destruct (String.eqb_spec s0 s) as [->|]; [now elim Hne | reflexivity].
Qed.

(** The default branch of the [try] block. *)
Lemma dispatch_default method params id self :
  method <> VStr "initialize" ->
  method <> VStr "tools/list" ->
  method <> VStr "tools/call" ->
  dispatch cls method params id self
  = (Ok (response_error id (-32601) ("Method not found: " ^^ py_str method)), self).
Proof.
  intros H1 H2 H3. unfold dispatch.
  now rewrite (eq_str_false _ _ H1), (eq_str_false _ _ H2), (eq_str_false _ _ H3).
Qed.

(* ------------------------------------------------------------------- *)
(** ** The claims about [handle_request] *)

(** C1, as amended.  A [tools/call] whose [name] is a string for which
    the server has no [tool_] method is answered with a JSON-RPC error
    object, code -32603 and message [Tool '<name>' not found]: the
    [ValueError] is raised by [call_tool] before its [try] and caught by
    [handle_request]; nothing but the log changes. *)
Theorem unknown_tool_is_internal_error d p name self :
  method_of d = VStr "tools/call" ->
  params_of d = VDict p ->
  name_of p = VStr name ->
  tool_method cls ("tool_" ^^ name) = None ->
  call_tool cls (VStr name) (arguments_of p) self
  = (Raise (ValueError ("Tool '" ^^ name ^^ "' not found")), self)
  /\ handle_request cls (VDict d) self
     = (Ok (response_error (id_of d) (-32603) ("Tool '" ^^ name ^^ "' not found")),
        add_log ERROR
          ("Error handling request tools/call: Tool '" ^^ name ^^ "' not found") self).
Proof.
  intros Hm Hp Hn Hnone. split.
  - now apply call_tool_unknown.
  - rewrite (tools_call_unknown d p self Hm Hp); rewrite Hn; [reflexivity | exact Hnone].
Qed.

(** C2, as amended.  On every request dict [handle_request] returns a
    response and does not raise; the response is well formed; and when
    the [try] block raised [e], the response is the error object with
    code -32603 and message [str(e)]. *)
Theorem handle_request_never_raises d self :
  exists response self',
    handle_request cls (VDict d) self = (Ok response, self')
    /\ well_formed_response response = true
    /\ (forall e s,
          dispatch cls (method_of d) (params_of d) (id_of d) self = (Raise e, s) ->
          response = response_error (id_of d) (-32603) (exn_text e)).
Proof.
  rewrite handle_request_dict.
  destruct (dispatch cls (method_of d) (params_of d) (id_of d) self)
    as [[r|e] s] eqn:Hd.
  - exists r, s. split; [reflexivity|]. split; [|discriminate].
    destruct (dispatch_returns_response _ _ _ _ _ _ Hd) as [[x ->]|[m ->]];
      reflexivity.
  - eexists _, _. split; [reflexivity|]. split; [reflexivity|].
    now intros e' s' [= <- _].
Qed.

(** C6.  On every request dict the response carries, under [id], the
    [id] of the request, and the string [1] when the request has none;
    the error responses -32601 and -32603 included. *)
Theorem response_id_echoes_request d self :
  exists response self',
    handle_request cls (VDict d) self = (Ok response, self')
    /\ response_field response "id" = Some (id_of d)
    /\ (forall v, dict_lookup d "id" = Some v -> response_field response "id" = Some v)
    /\ (dict_lookup d "id" = None -> response_field response "id" = Some (VStr "1")).
Proof.
  assert (Hid : exists response self',
             handle_request cls (VDict d) self = (Ok response, self')
             /\ response_field response "id" = Some (id_of d)).
  { destruct (handle_request_returns d self)
      as (response & self' & Hr & [(x & ->)|(code & m & ->)]);
      eexists _, self'; (split; [exact Hr | reflexivity]). }
  destruct Hid as (response & self' & Hr & Hf).
  exists response, self'. repeat split; try assumption.
  - intros v Hv. rewrite Hf. unfold id_of, dict_get. now rewrite Hv.
  - intros Hv. rewrite Hf. unfold id_of, dict_get. now rewrite Hv.
Qed.

(** C7.  When the [method] of the request is none of [initialize],
    [tools/list], [tools/call], the response is the error object with
    code -32601 and message [Method not found: ] followed by the method
    as [str] prints it (a string prints as itself; an absent method is
    [None]); the server is unchanged. *)
Theorem method_not_found d self :
  method_of d <> VStr "initialize" ->
  method_of d <> VStr "tools/list" ->
  method_of d <> VStr "tools/call" ->
  handle_request cls (VDict d) self
  = (Ok (response_error (id_of d) (-32601)
           ("Method not found: " ^^ py_str (method_of d))),
     self)
  /\ (forall m, method_of d = VStr m -> py_str (method_of d) = m).
Proof.
  intros H1 H2 H3. split.
  - rewrite handle_request_dict, (dispatch_default _ _ _ _ H1 H2 H3). reflexivity.
  - now intros m ->.
Qed.

(** C3.  When the method bound to a tool name raises [e], [call_tool]
    returns the failure envelope with [str(e)], and the [tools/call]
    response is a result that carries the serialized envelope: no
    exception reaches the caller of [handle_request]. *)
Theorem handler_exception_is_enveloped d p name h e c self :
  method_of d = VStr "tools/call" ->
  params_of d = VDict p ->
  name_of p = VStr name ->
  tool_method cls ("tool_" ^^ name) = Some h ->
  h (arguments_of p) (collaborators self) = (Raise e, c) ->
  let self' :=
    add_log ERROR ("Error in tool " ^^ name ^^ ": " ^^ exn_text e)
      (set_collaborators c self) in
  call_tool cls (VStr name) (arguments_of p) self
  = (Ok (envelope_failure (exn_text e)), self')
  /\ exists text,
      json_dumps (Some 2) (envelope_failure (exn_text e)) = Ok text
      /\ handle_request cls (VDict d) self
         = (Ok (response_result (id_of d) (text_content text)), self').
Proof.
  intros Hm Hp Hn Hh He self'.
  assert (Hcall : call_tool cls (VStr name) (arguments_of p) self
                  = (Ok (envelope_failure (exn_text e)), self')).
  { rewrite (call_tool_known (VStr name) _ _ h Hh), He. reflexivity. }
  split; [exact Hcall|].
  eexists. split; [apply dumps_envelope_failure|].
  rewrite handle_request_dict, (dispatch_tools_call d p self Hm Hp), Hn, Hcall.
  reflexivity.
Qed.

(** C8.  Whenever a [tools/call] request is answered with a [result],
    that result is [{content: [{type: text, text: t}]}] where [t] is
    [json.dumps(envelope, indent=2)] and [envelope] is what [call_tool]
    returned, a success or a failure envelope. *)
Theorem tools_call_result_shape d self response self' result :
  method_of d = VStr "tools/call" ->
  handle_request cls (VDict d) self = (Ok response, self') ->
  response_field response "result" = Some result ->
  exists p envelope text,
    params_of d = VDict p
    /\ call_tool cls (name_of p) (arguments_of p) self = (Ok envelope, self')
    /\ ((exists r, envelope = envelope_success r)
        \/ (exists m, envelope = envelope_failure m))
    /\ json_dumps (Some 2) envelope = Ok text
    /\ result = text_content text
    /\ response = response_result (id_of d) (text_content text).
Proof.
  intros Hm Hreq Hres. rewrite handle_request_dict in Hreq.
  destruct (params_of d) as [ | | | | | |p| ] eqn:Hp;
    try (rewrite Hm in Hreq; unfold dispatch, bind, lift in Hreq; simpl in Hreq;
         injection Hreq as <- <-; discriminate Hres).
  rewrite <- Hp, (dispatch_tools_call d p self Hm Hp) in Hreq.
  destruct (call_tool_cases (name_of p) (arguments_of p) self)
    as [(r & c & Hc)|[(e & c & Hc)|Hc]]; rewrite Hc in Hreq.
  - destruct (json_dumps (Some 2) (envelope_success r)) as [text|e] eqn:Hdumps.
    + injection Hreq as <- <-. injection Hres as <-.
      exists p, (envelope_success r), text. repeat split; eauto.
    + injection Hreq as <- <-. discriminate Hres.
  - rewrite dumps_envelope_failure in Hreq.
    injection Hreq as <- <-. injection Hres as <-.
    eexists p, (envelope_failure (exn_text e)), _.
    repeat split; eauto using dumps_envelope_failure.
  - injection Hreq as <- <-. discriminate Hres.
Qed.

(** The response to a request made of JSON data is JSON data, given that
    the tool descriptors are. *)
Lemma handle_request_serializable d self response self' :
  serializable (VDict d) = true ->
  forallb serializable (tools self) = true ->
  handle_request cls (VDict d) self = (Ok response, self') ->
  serializable response = true.
Proof.
  intros Hd Htools.
  assert (Hid : serializable (id_of d) = true)
    by (apply dict_get_serializable; [exact Hd | reflexivity]).
  rewrite handle_request_dict.
  destruct (dispatch cls (method_of d) (params_of d) (id_of d) self)
    as [[r|e] s] eqn:Hdis.
  2:{ intros [= <- _]. simpl. now rewrite Hid. }
  intros [= <- _]. revert Hdis. unfold dispatch.
  destruct (eq_str (method_of d) "initialize").
  { unfold bind. destruct (initialize cls self) as [[v|e] s0] eqn:Hi; [|discriminate].
    assert (v = capabilities) as ->.
    { revert Hi. unfold initialize, bind, get, ret.
      destruct (negb (_initialized self)).
      - unfold call_load_tools.
        destruct (_load_tools cls (tools self) (collaborators self)) as [[u|e] [ts c]];
          [|discriminate].
        unfold modify, logger, modify. now intros [= <- _].
      - now intros [= <- _]. }
    intros [= <- _]. simpl. now rewrite Hid. }
  destruct (eq_str (method_of d) "tools/list").
  { unfold bind, list_tools, get, ret. intros [= <- _]. simpl.
    now rewrite Hid, Htools. }
  destruct (eq_str (method_of d) "tools/call").
  { unfold bind, lift.
    destruct (get_method (params_of d) "name" VNone) as [n|e]; [|discriminate].
    destruct (get_method (params_of d) "arguments" (VDict [])) as [a|e]; [|discriminate].
    destruct (call_tool cls n a self) as [[v|e] s0]; [|discriminate].
    destruct (json_dumps (Some 2) v) as [text|e]; [|discriminate].
    intros [= <- _]. simpl. now rewrite Hid. }
  unfold ret. intros [= <- _]. simpl. now rewrite Hid.
Qed.

End Dispatcher.

(* ===================================================================== *)
(** * The session lifecycle *)
(* ===================================================================== *)

Section Lifecycle.

Context {C : Type} (cls : subclass C).

Implicit Types (self : MCPServer C) (d p : list (string * value)).

Lemma same_registry_refl self : same_registry self self.
Proof. now repeat split. Qed.

Lemma same_registry_add_log l msg self self' :
  same_registry self self' -> same_registry self (add_log l msg self').
Proof. intros H. exact H. Qed.

(** Once the flag is set, [initialize] only returns the payload. *)
Lemma initialize_again self :
  _initialized self = true ->
  initialize cls self = (Ok capabilities, self).
Proof.
  intros Hi. unfold initialize, bind, get, ret. now rewrite Hi.
Qed.

(** With the flag clear, [initialize] enters the loader; the flag is set
    only when the loader returns. *)
Lemma initialize_first self :
  _initialized self = false ->
  initialize cls self =
  match _load_tools cls (tools self) (collaborators self) with
  | (Ok _, (ts, c)) =>
      (Ok capabilities,
       add_log INFO "ZetaChain MCP Server initialized"
         (set_initialized true (loaded ts c self)))
  | (Raise e, (ts, c)) => (Raise e, loaded ts c self)
  end.
Proof.
  intros Hi. unfold initialize, bind, get, ret, call_load_tools. rewrite Hi. simpl.
  destruct (_load_tools cls (tools self) (collaborators self)) as [[u|e] [ts c]];
    reflexivity.
Qed.

(** [call_tool] reaches the collaborators and the log, nothing else. *)
Lemma call_tool_same_registry name arguments self :
  same_registry self (snd (call_tool cls name arguments self)).
Proof.
  destruct (call_tool_cases cls name arguments self)
    as [(r & c & ->)|[(e & c & ->)| ->]]; now repeat split.
Qed.

Section LoaderReturns.

Hypothesis loader_ok : loader_returns cls.

Lemma initialize_returns self :
  exists self',
    initialize cls self = (Ok capabilities, self')
    /\ (same_registry self self' \/ first_load cls self self')
    /\ _initialized self' = true.
Proof.
  destruct (_initialized self) eqn:Hi.
  - exists self. rewrite (initialize_again _ Hi).
    split; [reflexivity|]. split; [left; apply same_registry_refl | exact Hi].
  - rewrite (initialize_first _ Hi).
    pose proof (loader_ok (tools self) (collaborators self)) as Hl.
    unfold first_load.
    destruct (_load_tools cls (tools self) (collaborators self)) as [[[]|e] [ts c]];
      simpl in Hl; [|discriminate].
    eexists. split; [reflexivity|]. split; [right|reflexivity].
    now repeat split.
Qed.

(** What the [try] block does to the registry. *)
Lemma dispatch_registry method params id self :
  let self' := snd (dispatch cls method params id self) in
  same_registry self self' \/ first_load cls self self'.
Proof.
  unfold dispatch.
  destruct (eq_str method "initialize").
  { destruct (initialize_returns self) as (s & Hs & Hr & _).
    unfold bind. now rewrite Hs. }
  destruct (eq_str method "tools/list").
  { left. apply same_registry_refl. }
  destruct (eq_str method "tools/call"); [|left; apply same_registry_refl].
  unfold bind, lift.
  destruct (get_method params "name" VNone) as [n|e];
    [|left; apply same_registry_refl].
  destruct (get_method params "arguments" (VDict [])) as [a|e];
    [|left; apply same_registry_refl].
  pose proof (call_tool_same_registry n a self) as Hc.
  destruct (call_tool cls n a self) as [[v|e] s]; [|now left].
  destruct (json_dumps (Some 2) v); now left.
Qed.

Lemma handle_request_registry request self :
  let self' := snd (handle_request cls request self) in
  same_registry self self' \/ first_load cls self self'.
Proof.
  destruct request as [ | | | | | |d| ]; try (left; apply same_registry_refl).
  rewrite handle_request_dict.
  pose proof (dispatch_registry (method_of d) (params_of d) (id_of d) self) as Hd.
  destruct (dispatch cls (method_of d) (params_of d) (id_of d) self) as [[r|e] s];
    exact Hd.
Qed.

Lemma close_same_registry self : same_registry self (snd (close cls self)).
Proof.
  unfold close, bind, base_close, bind, modify, logger, modify.
  destruct (close_collaborators cls (collaborators self)) as [[u|e] c];
    now repeat split.
Qed.

(** Every call keeps the registry or is the first load. *)
Lemma perform_registry c self :
  same_registry self (perform cls c self) \/ first_load cls self (perform cls c self).
Proof.
  destruct c as [ | |name arguments|request| ]; simpl.
  - destruct (initialize_returns self) as (s & -> & Hr & _). exact Hr.
  - left. apply same_registry_refl.
  - left. apply call_tool_same_registry.
  - apply handle_request_registry.
  - left. apply close_same_registry.
Qed.

(** The loader count follows the flag. *)
Lemma perform_all_load_calls calls self :
  load_calls self = (if _initialized self then 1 else 0) ->
  load_calls (perform_all cls calls self)
  = (if _initialized (perform_all cls calls self) then 1 else 0).
Proof.
  revert self. induction calls as [|c calls IH]; intros self Hinv; [exact Hinv|].
  simpl. apply IH.
  destruct (perform_registry c self) as [(_ & Hi & Hl)|(Hi & Hi' & Hl & _)].
  - now rewrite Hi, Hl.
  - rewrite Hl, Hi', Hinv, Hi. reflexivity.
Qed.

End LoaderReturns.

(** C4.  For a subclass whose loader returns normally: from any state,
    [initialize] called twice returns the same capability payload both
    times, the second call leaves the server as it found it (no reload,
    registry untouched), and the two calls together enter the loader at
    most once; the same holds for an [initialize] request sent twice;
    and over any sequence of calls on a new server the loader is entered
    at most once. *)
Theorem initialize_idempotent :
  loader_returns cls ->
  (forall self,
      exists self1,
        initialize cls self = (Ok capabilities, self1)
        /\ initialize cls self1 = (Ok capabilities, self1)
        /\ load_calls self1 <= S (load_calls self))
  /\ (forall d self,
        method_of d = VStr "initialize" ->
        exists self1,
          handle_request cls (VDict d) self
          = (Ok (response_result (id_of d) capabilities), self1)
          /\ handle_request cls (VDict d) self1
             = (Ok (response_result (id_of d) capabilities), self1))
  /\ (forall c calls, load_calls (perform_all cls calls (new_server c)) <= 1).
Proof.
  intros Hok. split; [|split].
  - intros self. destruct (initialize_returns Hok self) as (s & Hs & Hr & Hi).
    exists s. split; [exact Hs|]. split; [now apply initialize_again|].
    destruct Hr as [(_ & _ & ->)|(_ & _ & -> & _)]; lia.
  - intros d self Hm. destruct (initialize_returns Hok self) as (s & Hs & _ & Hi).
    exists s. rewrite !handle_request_dict, Hm.
    unfold dispatch, bind, ret; simpl.
    now rewrite Hs, (initialize_again _ Hi).
  - intros c calls.
    rewrite (perform_all_load_calls Hok calls (new_server c) eq_refl).
    destruct (_initialized _); lia.
Qed.

End Lifecycle.

(* ===================================================================== *)
(** * The ZetaChain server *)
(* ===================================================================== *)

Lemma distinct_NoDup (l : list string) : distinct l = true -> NoDup l.
Proof.
  induction l as [|x l IH]; simpl; [constructor|].
  intros [Hx Hl]%andb_prop. constructor; [|now apply IH].
  intros Hin. apply negb_true_iff in Hx.
  assert (existsb (String.eqb x) l = true) as He; [|congruence].
  apply existsb_exists. exists x. split; [exact Hin | apply String.eqb_refl].
Qed.

Lemma NoDup_map_VStr (l : list string) : NoDup l -> NoDup (map VStr l).
Proof.
  induction 1 as [|x l Hx _ IH]; simpl; constructor; [|exact IH].
  intros (y & [= ->] & Hy)%in_map_iff. contradiction.
Qed.

Section ZetaChain.

Context {C : Type} (managers : string -> handler C)
        (connection_close : C -> outcome unit * C).

Let Z : subclass C := ZetaChainMCPServer managers connection_close.

Implicit Types (self : MCPServer C) (d p : list (string * value)).

Lemma zetachain_loader_returns : loader_returns Z.
Proof. intros ts c. reflexivity. Qed.

Lemma zetachain_names :
  map descriptor_name zetachain_tools = map VStr zetachain_tool_names.
Proof. reflexivity. Qed.

(** Each descriptor names a method of the class. *)
Lemma zetachain_methods :
  map (fun n => "tool_" ^^ n) zetachain_tool_names = zetachain_tool_methods.
Proof. reflexivity. Qed.

(** Wherever the flag is set, the registry is the literal of the loader. *)
Lemma zetachain_registry calls self :
  (_initialized self = true -> tools self = zetachain_tools) ->
  _initialized (perform_all Z calls self) = true ->
  tools (perform_all Z calls self) = zetachain_tools.
Proof.
  revert self. induction calls as [|c calls IH]; intros self Hinv; [exact Hinv|].
  simpl. apply IH.
  destruct (perform_registry Z zetachain_loader_returns c self)
    as [(Ht & Hi & _)|(_ & _ & _ & Ht)].
  - rewrite Ht, Hi. exact Hinv.
  - intros _. exact Ht.
Qed.

(** After [initialize], no call changes the registry. *)
Lemma zetachain_registry_fixed calls self :
  _initialized self = true ->
  same_registry self (perform_all Z calls self).
Proof.
  revert self. induction calls as [|c calls IH]; intros self Hi;
    [apply same_registry_refl|].
  simpl.
  destruct (perform_registry Z zetachain_loader_returns c self)
    as [(Ht & Hi' & Hl)|(Hf & _)]; [|congruence].
  destruct (IH (perform Z c self)) as (Ht2 & Hi2 & Hl2); [congruence|].
  repeat split; congruence.
Qed.

(** The descriptors of a ZetaChain server are JSON data, whatever calls
    were made: the registry is empty or the literal of the loader. *)
Lemma zetachain_tools_serializable calls self :
  forallb serializable (tools self) = true ->
  forallb serializable (tools (perform_all Z calls self)) = true.
Proof.
  revert self. induction calls as [|c calls IH]; intros self H; [exact H|].
  simpl. apply IH.
  destruct (perform_registry Z zetachain_loader_returns c self)
    as [(Ht & _)|(_ & _ & _ & Ht)].
  - now rewrite Ht.
  - rewrite Ht. reflexivity.
Qed.

(** C9.  On a ZetaChain server, after any earlier calls, an
    [initialize] request succeeds and the [tools/list] request that
    follows returns the list bound by [_load_tools], in its order: 28
    descriptors whose names are those of [zetachain_tool_names], no
    name twice.  After that no call changes [self.tools], and the
    loader has run exactly once. *)
Theorem tools_list_after_initialize (c : C) (before after : list call) d_init d_list :
  method_of d_init = VStr "initialize" ->
  method_of d_list = VStr "tools/list" ->
  let self0 := perform_all Z before (new_server c) in
  exists self1,
    handle_request Z (VDict d_init) self0
    = (Ok (response_result (id_of d_init) capabilities), self1)
    /\ handle_request Z (VDict d_list) self1
       = (Ok (response_result (id_of d_list)
                (VDict [("tools", VList zetachain_tools)])), self1)
    /\ zetachain_tools = fst (snd (_load_tools Z (tools self0) (collaborators self0)))
    /\ map descriptor_name zetachain_tools = map VStr zetachain_tool_names
    /\ length zetachain_tools = 28
    /\ NoDup (map descriptor_name zetachain_tools)
    /\ tools (perform_all Z after self1) = zetachain_tools
    /\ load_calls (perform_all Z after self1) = 1.
Proof.
  intros Hinit Hlist self0.
  destruct (initialize_returns Z zetachain_loader_returns self0) as (self1 & Hs & _ & Hi).
  exists self1.
  assert (Hreq : handle_request Z (VDict d_init) self0
                 = (Ok (response_result (id_of d_init) capabilities), self1)).
  { rewrite handle_request_dict, Hinit. unfold dispatch, bind, ret; simpl.
    now rewrite Hs. }
  assert (Hreach : self1 = perform_all Z (before ++ [CallHandleRequest (VDict d_init)])
                               (new_server c)).
  { unfold perform_all. rewrite fold_left_app. simpl.
    fold (perform_all Z before (new_server c)). fold self0. now rewrite Hreq. }
  assert (Htools : tools self1 = zetachain_tools).
  { rewrite Hreach. apply zetachain_registry; [discriminate|]. now rewrite <- Hreach. }
  assert (Hcount : load_calls self1 = 1).
  { rewrite Hreach.
    rewrite (perform_all_load_calls Z zetachain_loader_returns _ (new_server c) eq_refl).
    now rewrite <- Hreach, Hi. }
  destruct (zetachain_registry_fixed after self1 Hi) as (Ht & _ & Hl).
  split; [exact Hreq|]. split.
  { rewrite handle_request_dict, Hlist. unfold dispatch, bind, list_tools, get, ret; simpl.
    now rewrite Htools. }
  split; [reflexivity|]. split; [reflexivity|]. split; [reflexivity|]. split.
  { rewrite zetachain_names. apply NoDup_map_VStr, distinct_NoDup. reflexivity. }
  split; congruence.
Qed.

(** C10.  A [tools/call] whose [params] dict has no [name]: the name
    read is [None], the class has no attribute [tool_None], [call_tool]
    raises the [ValueError] before its own [try], and the response is
    the error object with code -32603 and message
    [Tool 'None' not found]. *)
Theorem missing_name_is_internal_error d p self :
  method_of d = VStr "tools/call" ->
  params_of d = VDict p ->
  dict_lookup p "name" = None ->
  name_of p = VNone
  /\ tool_method Z "tool_None" = None
  /\ call_tool Z (name_of p) (arguments_of p) self
     = (Raise (ValueError "Tool 'None' not found"), self)
  /\ handle_request Z (VDict d) self
     = (Ok (response_error (id_of d) (-32603) "Tool 'None' not found"),
        add_log ERROR "Error handling request tools/call: Tool 'None' not found" self).
Proof.
  intros Hm Hp Hname.
  assert (Hn : name_of p = VNone) by (unfold name_of, dict_get; now rewrite Hname).
  assert (Hnone : tool_method Z ("tool_" ^^ py_str (name_of p)) = None)
    by (rewrite Hn; reflexivity).
  repeat split.
  - exact Hn.
  - rewrite (call_tool_unknown Z _ _ _ Hnone), Hn. reflexivity.
  - rewrite (tools_call_unknown Z d p self Hm Hp Hnone), Hn. reflexivity.
Qed.

End ZetaChain.

(* ===================================================================== *)
(** * The stream adapter *)
(* ===================================================================== *)

Section Stream.

Context {C : Type} (cls : subclass C) (json_loads : string -> value + string).

Implicit Types (self : MCPServer C) (d : list (string * value)).

Lemma initialize_transport self :
  transport (snd (initialize cls self)) = transport self.
Proof.
  destruct (_initialized self) eqn:Hi.
  - now rewrite (initialize_again cls _ Hi).
  - rewrite (initialize_first cls _ Hi).
    destruct (_load_tools cls (tools self) (collaborators self)) as [[u|e] [ts c]];
      reflexivity.
Qed.

Lemma call_tool_transport name arguments self :
  transport (snd (call_tool cls name arguments self)) = transport self.
Proof.
  destruct (call_tool_cases cls name arguments self)
    as [(r & c & ->)|[(e & c & ->)| ->]]; reflexivity.
Qed.

(** No request touches the transport. *)
Lemma handle_request_transport request self :
  transport (snd (handle_request cls request self)) = transport self.
Proof.
  destruct request as [ | | | | | |d| ]; try reflexivity.
  rewrite handle_request_dict.
  assert (Hd : transport (snd (dispatch cls (method_of d) (params_of d) (id_of d) self))
               = transport self).
  { unfold dispatch.
    destruct (eq_str (method_of d) "initialize").
    { pose proof (initialize_transport self) as Hi. unfold bind.
      destruct (initialize cls self) as [[v|e] s]; exact Hi. }
    destruct (eq_str (method_of d) "tools/list"); [reflexivity|].
    destruct (eq_str (method_of d) "tools/call"); [|reflexivity].
    unfold bind, lift.
    destruct (get_method (params_of d) "name" VNone) as [n|e]; [|reflexivity].
    destruct (get_method (params_of d) "arguments" (VDict [])) as [a|e]; [|reflexivity].
    pose proof (call_tool_transport n a self) as Hc.
    destruct (call_tool cls n a self) as [[v|e] s]; [|exact Hc].
    destruct (json_dumps (Some 2) v); exact Hc. }
  destruct (dispatch cls (method_of d) (params_of d) (id_of d) self) as [[r|e] s];
    exact Hd.
Qed.

Lemma truthy_strip line : truthy (strip line) = true -> truthy line = true.
Proof. destruct line; [discriminate | reflexivity]. Qed.

(** The parse-error response always serializes. *)
Lemma dumps_parse_error message :
  exists text, json_dumps None (response_error VNone (-32700) message) = Ok text.
Proof. eexists. reflexivity. Qed.

(** A line that decodes to a request dict is dispatched, and the
    response, once serialized, is written. *)
Lemma iterate_request line d self stdout :
  _closed (transport self) = false ->
  truthy (strip line) = true ->
  json_loads (strip line) = inl (VDict d) ->
  exists response self',
    handle_request cls (VDict d) self = (Ok response, self')
    /\ _closed (transport self') = false
    /\ forall answer,
        json_dumps None response = Ok answer ->
        iterate cls json_loads line self stdout = Continue self' (stdout ++ [answer]).
Proof.
  intros Hopen Hline Hloads.
  destruct (handle_request_returns cls d self) as (response & self' & Hr & _).
  pose proof (handle_request_transport (VDict d) self) as Ht.
  rewrite Hr in Ht; simpl in Ht.
  exists response, self'. split; [exact Hr|]. split; [now rewrite Ht|].
  intros answer Hanswer. unfold iterate, read_request, write_response.
  now rewrite Hopen, (truthy_strip _ Hline), Hline, Hloads, Hr, Hanswer, Ht, Hopen.
Qed.

(** A line that decodes to a request dict of JSON data is dispatched and
    answered: the response serializes and is written. *)
Lemma iterate_request_answered line d self stdout :
  _closed (transport self) = false ->
  truthy (strip line) = true ->
  json_loads (strip line) = inl (VDict d) ->
  serializable (VDict d) = true ->
  forallb serializable (tools self) = true ->
  exists response self' answer,
    handle_request cls (VDict d) self = (Ok response, self')
    /\ json_dumps None response = Ok answer
    /\ iterate cls json_loads line self stdout = Continue self' (stdout ++ [answer]).
Proof.
  intros Hopen Hline Hloads Hd Htools.
  destruct (iterate_request line d self stdout Hopen Hline Hloads)
    as (response & self' & Hr & _ & Hans).
  destruct (json_dumps_serializable None response
              (handle_request_serializable cls d self response self' Hd Htools Hr))
    as (answer & Hanswer).
  exists response, self', answer. split; [exact Hr|]. split; [exact Hanswer|].
  now apply Hans.
Qed.

(** C5, as amended.  With the transport open, a line that is not blank
    (something is left after [strip]) and on which [json.loads] raises
    [JSONDecodeError] is answered with the serialized error object of
    code -32700 and [id] null; the server is unchanged and the loop goes
    on with the next line: when that line decodes to a request dict (of
    JSON data, as everything [json.loads] builds; the tool descriptors
    being JSON data too), the request is dispatched, its response
    serializes, and it is written after the parse error. *)
Theorem parse_error_is_answered line rest self stdout err :
  _closed (transport self) = false ->
  truthy (strip line) = true ->
  json_loads (strip line) = inr err ->
  exists text,
    json_dumps None (response_error VNone (-32700) ("Parse error: " ^^ err)) = Ok text
    /\ iterate cls json_loads line self stdout = Continue self (stdout ++ [text])
    /\ loop cls json_loads (line :: rest) self stdout
       = loop cls json_loads rest self (stdout ++ [text])
    /\ forall next rest' d,
        rest = next :: rest' ->
        truthy (strip next) = true ->
        json_loads (strip next) = inl (VDict d) ->
        serializable (VDict d) = true ->
        forallb serializable (tools self) = true ->
        exists response self' answer,
          handle_request cls (VDict d) self = (Ok response, self')
          /\ json_dumps None response = Ok answer
          /\ loop cls json_loads (line :: rest) self stdout
             = loop cls json_loads rest' self' (stdout ++ [text; answer]).
Proof.
  intros Hopen Hline Hloads.
  destruct (dumps_parse_error ("Parse error: " ^^ err)) as (text & Htext).
  assert (Hit : iterate cls json_loads line self stdout
                = Continue self (stdout ++ [text])).
  { unfold iterate, read_request, write_response.
    now rewrite Hopen, (truthy_strip _ Hline), Hline, Hloads, Htext. }
  assert (Hloop : forall rest0,
             loop cls json_loads (line :: rest0) self stdout
             = loop cls json_loads rest0 self (stdout ++ [text])).
  { intros rest0. simpl. now rewrite Hit. }
  exists text. split; [exact Htext|]. split; [exact Hit|]. split; [apply Hloop|].
  intros next rest' d -> Hnext Hd Hser Htools.
  destruct (iterate_request_answered next d self (stdout ++ [text])
              Hopen Hnext Hd Hser Htools)
    as (response & self' & answer & Hr & Hanswer & Hnextit).
  exists response, self', answer. split; [exact Hr|]. split; [exact Hanswer|].
  rewrite Hloop. simpl. rewrite Hnextit, <- app_assoc. reflexivity.
Qed.

End Stream.

(* ===================================================================== *)
(** * The claims on the test double *)
(* ===================================================================== *)

(** C1, as stated, fails: the class has no method [tool_does_not_exist],
    and the response to the [tools/call] is not a result with a text
    envelope, whatever the text. *)
Lemma unknown_tool_counterexample :
  tool_method Fixture.server "tool_does_not_exist" = None
  /\ ~ (exists text self',
          handle_request Fixture.server (VDict Fixture.unknown_call) Fixture.fresh
          = (Ok (response_result (VStr "7") (text_content text)), self')).
Proof.
  split; [reflexivity|].
  intros (text & self' & H). vm_compute in H. discriminate H.
Qed.

Lemma unknown_tool_is_internal_error_witness :
  handle_request Fixture.server (VDict Fixture.unknown_call) Fixture.fresh
  = (Ok (response_error (VStr "7") (-32603) "Tool 'does_not_exist' not found"),
     add_log ERROR
       "Error handling request tools/call: Tool 'does_not_exist' not found"
       Fixture.fresh).
Proof.
  exact (proj2 (unknown_tool_is_internal_error Fixture.server
                  Fixture.unknown_call Fixture.unknown_params "does_not_exist"
                  Fixture.fresh eq_refl eq_refl eq_refl eq_refl)).
Defined.

Lemma handler_exception_is_enveloped_witness :
  Fixture.managers "tool_get_pools" (VDict []) tt = (Raise (Exn "RuntimeError" "boom"), tt)
  /\ call_tool Fixture.server (VStr "get_pools") (VDict []) Fixture.fresh
     = (Ok (envelope_failure "boom"),
        add_log ERROR "Error in tool get_pools: boom" Fixture.fresh)
  /\ exists text,
      json_dumps (Some 2) (envelope_failure "boom") = Ok text
      /\ handle_request Fixture.server (VDict Fixture.failing_call) Fixture.fresh
         = (Ok (response_result (VStr "8") (text_content text)),
            add_log ERROR "Error in tool get_pools: boom" Fixture.fresh).
Proof.
  split; [reflexivity|].
  exact (handler_exception_is_enveloped Fixture.server
           Fixture.failing_call Fixture.failing_params "get_pools"
           (Fixture.managers "tool_get_pools") (Exn "RuntimeError" "boom") tt
           Fixture.fresh eq_refl eq_refl eq_refl eq_refl eq_refl).
Defined.

Lemma initialize_idempotent_witness :
  loader_returns Fixture.server
  /\ (exists self1,
        initialize Fixture.server Fixture.fresh = (Ok capabilities, self1)
        /\ initialize Fixture.server self1 = (Ok capabilities, self1)
        /\ load_calls self1 <= 1)
  /\ (forall calls, load_calls (perform_all Fixture.server calls Fixture.fresh) <= 1).
Proof.
  assert (Hok : loader_returns Fixture.server) by (intros ts c; reflexivity).
  split; [exact Hok|].
  destruct (initialize_idempotent Fixture.server Hok) as (H1 & _ & H3).
  split; [exact (H1 Fixture.fresh) | exact (H3 tt)].
Defined.

(** C2, as stated, fails on a request that is not a dict.  The stream
    adapter hands [handle_request] whatever [json.loads] built, here the
    list of the line [[1]]; the reads at the top of [handle_request] are
    outside its [try], and the first of them raises. *)
Lemma non_dict_request_counterexample :
  Doubles.json_loads (strip (Doubles.array_line ^^ newline)) = inl (VList [VInt 1])
  /\ handle_request Fixture.server (VList [VInt 1]) Fixture.fresh
     = (Raise (AttributeError "'list' object has no attribute 'get'"), Fixture.fresh)
  /\ ~ (exists response self',
          handle_request Fixture.server (VList [VInt 1]) Fixture.fresh
          = (Ok response, self')).
Proof.
  split; [reflexivity|]. split; [reflexivity|].
  intros (response & self' & H). discriminate H.
Qed.

(** C5, as stated, fails twice.  A blank line is not valid JSON, yet the
    loop ends there with nothing written, and the request on the next
    line, which would have been answered, is not read.  And the text
    [NaN] is not valid JSON either, yet [json.loads] decodes it, to a
    float; [handle_request] raises on it outside its [try], and the loop
    ends with nothing written. *)
Lemma unanswered_line_counterexample :
  (Fixture.json_loads (strip Fixture.blank_line)
   = inr "Expecting value: line 1 column 1 (char 0)"
   /\ loop Fixture.server Fixture.json_loads
        [Fixture.blank_line; Fixture.list_line ^^ newline] Fixture.fresh []
      = (Ok tt, Fixture.fresh, [])
   /\ length (snd (loop Fixture.server Fixture.json_loads
                     [Fixture.list_line ^^ newline] Fixture.fresh [])) = 1)
  /\ (Doubles.python_loads (strip (Doubles.nan_line ^^ newline)) = inl (VFloat FNan)
      /\ loop Fixture.server Doubles.python_loads
           [Doubles.nan_line ^^ newline; Fixture.list_line ^^ newline] Fixture.fresh []
         = (Ok tt,
            log_unexpected (AttributeError "'float' object has no attribute 'get'")
              Fixture.fresh,
            [])).
Proof. repeat split; vm_compute; reflexivity. Qed.

Lemma parse_error_is_answered_witness :
  Fixture.json_loads (strip Fixture.bad_line)
  = inr "Expecting value: line 1 column 1 (char 0)"
  /\ exists text answer self',
      json_dumps None
        (response_error VNone (-32700)
           "Parse error: Expecting value: line 1 column 1 (char 0)") = Ok text
      /\ json_dumps None
           (response_result (VStr "1") (VDict [("tools", VList [])])) = Ok answer
      /\ loop Fixture.server Fixture.json_loads
           [Fixture.bad_line; Fixture.list_line ^^ newline] Fixture.fresh []
         = (Ok tt, self', [text; answer]).
Proof.
  split; [reflexivity|].
  destruct (parse_error_is_answered Fixture.server Fixture.json_loads
              Fixture.bad_line [Fixture.list_line ^^ newline] Fixture.fresh []
              "Expecting value: line 1 column 1 (char 0)"
              eq_refl eq_refl eq_refl) as (text & Ht & _ & _ & Hnext).
  destruct (Hnext (Fixture.list_line ^^ newline) [] [("method", VStr "tools/list")]
              eq_refl eq_refl eq_refl eq_refl eq_refl)
    as (response & self' & answer & Hr & Ha & Hloop).
  injection Hr as <- <-.
  exists text, answer, Fixture.fresh.
  split; [exact Ht|]. split; [exact Ha | exact Hloop].
Defined.

Lemma method_not_found_witness :
  handle_request Fixture.server
    (VDict (Fixture.request "11" "resources/list" [])) Fixture.fresh
  = (Ok (response_error (VStr "11") (-32601) "Method not found: resources/list"),
     Fixture.fresh).
Proof.
  refine (proj1 (method_not_found Fixture.server
                   (Fixture.request "11" "resources/list" []) Fixture.fresh _ _ _));
    discriminate.
Defined.

Lemma tools_call_result_shape_witness :
  exists p envelope text,
    params_of Fixture.wallets_call = VDict p
    /\ call_tool Fixture.server (name_of p) (arguments_of p) Fixture.fresh
       = (Ok envelope, Fixture.fresh)
    /\ ((exists r, envelope = envelope_success r)
        \/ (exists m, envelope = envelope_failure m))
    /\ json_dumps (Some 2) envelope = Ok text
    /\ snd (handle_request Fixture.server (VDict Fixture.wallets_call) Fixture.fresh)
       = Fixture.fresh
    /\ fst (handle_request Fixture.server (VDict Fixture.wallets_call) Fixture.fresh)
       = Ok (response_result (id_of Fixture.wallets_call) (text_content text)).
Proof.
  destruct (tools_call_result_shape Fixture.server Fixture.wallets_call Fixture.fresh
              _ _ _ eq_refl eq_refl eq_refl)
    as (p & envelope & text & Hp & Hc & He & Hd & _ & Hr).
  exists p, envelope, text.
  repeat (split; [assumption|]).
  split; [reflexivity|]. rewrite <- Hr. reflexivity.
Defined.

Lemma tools_list_after_initialize_witness :
  exists self1,
    handle_request Fixture.server
      (VDict (Fixture.request "1" "initialize" [])) Fixture.fresh
    = (Ok (response_result (VStr "1") capabilities), self1)
    /\ handle_request Fixture.server
         (VDict (Fixture.request "2" "tools/list" [])) self1
       = (Ok (response_result (VStr "2") (VDict [("tools", VList zetachain_tools)])),
          self1)
    /\ tools (perform_all Fixture.server
                [CallHandleRequest (VDict Fixture.failing_call); CallInitialize] self1)
       = zetachain_tools.
Proof.
  destruct (tools_list_after_initialize Fixture.managers (fun c => (Ok tt, c)) tt []
              [CallHandleRequest (VDict Fixture.failing_call); CallInitialize]
              (Fixture.request "1" "initialize" [])
              (Fixture.request "2" "tools/list" []) eq_refl eq_refl)
    as (self1 & H1 & H2 & _ & _ & _ & _ & H3 & _).
  exists self1. split; [exact H1|]. split; [exact H2 | exact H3].
Defined.

Lemma missing_name_is_internal_error_witness :
  dict_lookup Fixture.nameless_params "name" = None
  /\ handle_request Fixture.server (VDict Fixture.nameless_call) Fixture.fresh
     = (Ok (response_error (VStr "10") (-32603) "Tool 'None' not found"),
        add_log ERROR "Error handling request tools/call: Tool 'None' not found"
          Fixture.fresh).
Proof.
  split; [reflexivity|].
  exact (proj2 (proj2 (proj2
           (missing_name_is_internal_error Fixture.managers (fun c => (Ok tt, c))
              Fixture.nameless_call Fixture.nameless_params Fixture.fresh
              eq_refl eq_refl eq_refl)))).
Defined.

(* ===================================================================== *)
(** * More on the dispatcher and the stream adapter *)
(* ===================================================================== *)

Section DispatcherEdges.

Context {C : Type} (cls : subclass C).

Implicit Types (self : MCPServer C) (d p : list (string * value)).

(** X1.  A [tools/call] for a bound method that returns [result]: when
    the success envelope serializes to [text], the response is the result
    with that text, and only the collaborators have changed, as the
    method left them. *)
Theorem tools_call_success d p h result c text self :
  method_of d = VStr "tools/call" ->
  params_of d = VDict p ->
  tool_method cls ("tool_" ^^ py_str (name_of p)) = Some h ->
  h (arguments_of p) (collaborators self) = (Ok result, c) ->
  json_dumps (Some 2) (envelope_success result) = Ok text ->
  handle_request cls (VDict d) self
  = (Ok (response_result (id_of d) (text_content text)), set_collaborators c self).
Proof.
  intros Hm Hp Hh Hr Ht.
  rewrite handle_request_dict, (dispatch_tools_call cls d p self Hm Hp).
  rewrite (call_tool_known cls _ _ _ h Hh), Hr, Ht. reflexivity.
Qed.

(** X2.  When the method returns something [json.dumps] cannot serialize,
    the [TypeError] is answered with error -32603 and its text; what the
    method did to the collaborators stays done. *)
Theorem tools_call_unserializable d p h result c e self :
  method_of d = VStr "tools/call" ->
  params_of d = VDict p ->
  tool_method cls ("tool_" ^^ py_str (name_of p)) = Some h ->
  h (arguments_of p) (collaborators self) = (Ok result, c) ->
  json_dumps (Some 2) (envelope_success result) = Raise e ->
  handle_request cls (VDict d) self
  = (Ok (response_error (id_of d) (-32603) (exn_text e)),
     add_log ERROR ("Error handling request tools/call: " ^^ exn_text e)
       (set_collaborators c self)).
Proof.
  intros Hm Hp Hh Hr Ht.
  rewrite handle_request_dict, (dispatch_tools_call cls d p self Hm Hp).
  rewrite (call_tool_known cls _ _ _ h Hh), Hr, Ht, Hm. reflexivity.
Qed.

(** X3.  A [tools/call] whose [params] is not a dict: no method is
    called; the response is error -32603 with the text of the
    [AttributeError] for the type of [params]. *)
Theorem tools_call_malformed_params d self :
  method_of d = VStr "tools/call" ->
  (forall p, params_of d <> VDict p) ->
  handle_request cls (VDict d) self
  = (Ok (response_error (id_of d) (-32603)
           ("'" ^^ type_name (params_of d) ^^ "' object has no attribute 'get'")),
     add_log ERROR
       ("Error handling request tools/call: '" ^^ type_name (params_of d)
          ^^ "' object has no attribute 'get'") self).
Proof.
  intros Hm Hnd. rewrite handle_request_dict, Hm.
  unfold dispatch, bind, lift; simpl.
  destruct (params_of d) as [ | | | | | |p| ]; try reflexivity.
  now elim (Hnd p).
Qed.

(** X4.  When the loader raises, an [initialize] request is answered with
    error -32603 and the text of the exception; the flag stays clear and
    the loader has been entered once more, so that the next [initialize]
    enters it again. *)
Theorem initialize_loader_failure d e ts c self :
  method_of d = VStr "initialize" ->
  _initialized self = false ->
  _load_tools cls (tools self) (collaborators self) = (Raise e, (ts, c)) ->
  let self' :=
    add_log ERROR ("Error handling request initialize: " ^^ exn_text e)
      (loaded ts c self) in
  handle_request cls (VDict d) self
  = (Ok (response_error (id_of d) (-32603) (exn_text e)), self')
  /\ _initialized self' = false
  /\ load_calls self' = S (load_calls self)
  /\ forall e' ts' c',
      _load_tools cls (tools self') (collaborators self') = (Raise e', (ts', c')) ->
      load_calls (snd (handle_request cls (VDict d) self')) = S (S (load_calls self)).
Proof.
  intros Hm Hi Hl self'.
  assert (Hstep : forall s x t k,
             _initialized s = false ->
             _load_tools cls (tools s) (collaborators s) = (Raise x, (t, k)) ->
             handle_request cls (VDict d) s
             = (Ok (response_error (id_of d) (-32603) (exn_text x)),
                add_log ERROR ("Error handling request initialize: " ^^ exn_text x)
                  (loaded t k s))).
  { intros s x t k Hs Hx. rewrite handle_request_dict, Hm.
    unfold dispatch, bind; simpl. rewrite (initialize_first cls s Hs), Hx. reflexivity. }
  split; [now apply Hstep|]. split; [exact Hi|]. split; [reflexivity|].
  intros e' ts' c' Hl'. rewrite (Hstep self' e' ts' c' Hi Hl'). reflexivity.
Qed.

End DispatcherEdges.

Section StreamEdges.

Context {C : Type} (cls : subclass C) (json_loads : string -> value + string).

Implicit Types (self : MCPServer C) (d : list (string * value)).

(** X5.  A line that decodes to something other than a dict (a JSON
    array, a number ...) ends the loop: [handle_request] raises outside
    its [try], [run] logs the error and breaks; nothing is written and
    the lines that follow are not read. *)
Theorem non_dict_line_ends_loop line rest v self stdout :
  _closed (transport self) = false ->
  truthy (strip line) = true ->
  json_loads (strip line) = inl v ->
  (forall d, v <> VDict d) ->
  loop cls json_loads (line :: rest) self stdout
  = (Ok tt,
     log_unexpected
       (AttributeError ("'" ^^ type_name v ^^ "' object has no attribute 'get'")) self,
     stdout).
Proof.
  intros Hopen Hline Hloads Hnd. simpl.
  unfold iterate, read_request.
  rewrite Hopen, (truthy_strip _ Hline), Hline, Hloads.
  rewrite (handle_request_not_dict cls v self Hnd). reflexivity.
Qed.

(** X6.  A line that is empty or all white space ends the loop like the
    end of the input does, and so does a closed transport: nothing is
    written, the server is as it was, the following lines stay unread. *)
Theorem blank_line_ends_loop line rest self stdout :
  truthy (strip line) = false \/ _closed (transport self) = true ->
  loop cls json_loads (line :: rest) self stdout = (Ok tt, self, stdout).
Proof.
  intros [Hblank|Hclosed]; simpl; unfold iterate, read_request.
  - destruct (_closed (transport self)); [reflexivity|].
    destruct (truthy line); [|reflexivity]. now rewrite Hblank.
  - now rewrite Hclosed.
Qed.

(** One pass never lets an exception through. *)
Lemma iterate_never_propagates line self stdout e self' stdout' :
  iterate cls json_loads line self stdout <> Propagate e self' stdout'.
Proof.
  unfold iterate.
  destruct (read_request (transport self) line) as [request_data|]; [|discriminate].
  destruct (negb (truthy request_data)); [discriminate|].
  destruct (json_loads request_data) as [request|err].
  - destruct (handle_request cls request self) as [[response|x] s]; [|discriminate].
    destruct (json_dumps None response); discriminate.
  - destruct (dumps_parse_error ("Parse error: " ^^ err)) as (text & ->). discriminate.
Qed.

(** One pass appends at most one line to the output. *)
Lemma iterate_output line self stdout :
  exists added,
    length added <= 1
    /\ match iterate cls json_loads line self stdout with
       | Continue _ out | Break _ out | Propagate _ _ out => out = stdout ++ added
       end.
Proof.
  unfold iterate, write_response.
  destruct (read_request (transport self) line) as [request_data|];
    [|exists []; split; [simpl; lia | now rewrite app_nil_r]].
  destruct (negb (truthy request_data));
    [exists []; split; [simpl; lia | now rewrite app_nil_r]|].
  destruct (json_loads request_data) as [request|err].
  - destruct (handle_request cls request self) as [[response|x] s];
      [|exists []; split; [simpl; lia | now rewrite app_nil_r]].
    destruct (json_dumps None response) as [text|x];
      [|exists []; split; [simpl; lia | now rewrite app_nil_r]].
    destruct (_closed (transport s));
      [exists []; split; [simpl; lia | now rewrite app_nil_r]
      |exists [text]; split; [simpl; lia | reflexivity]].
  - destruct (json_dumps None _) as [text|x];
      [|exists []; split; [simpl; lia | now rewrite app_nil_r]].
    destruct (_closed (transport self));
      [exists []; split; [simpl; lia | now rewrite app_nil_r]
      |exists [text]; split; [simpl; lia | reflexivity]].
Qed.

(** The loop always ends normally. *)
Lemma loop_returns stdin self stdout :
  fst (fst (loop cls json_loads stdin self stdout)) = Ok tt.
Proof.
  revert self stdout. induction stdin as [|line rest IH]; intros self stdout;
    [reflexivity|].
  simpl. destruct (iterate cls json_loads line self stdout) as [s o|s o|e s o] eqn:Hit.
  - apply IH.
  - reflexivity.
  - now elim (iterate_never_propagates _ _ _ _ _ _ Hit).
Qed.

(** X7.  The loop only appends to the output, and at most one line for
    each line of the input. *)
Theorem loop_output_bound stdin self stdout :
  exists added,
    snd (loop cls json_loads stdin self stdout) = stdout ++ added
    /\ length added <= length stdin.
Proof.
  revert self stdout. induction stdin as [|line rest IH]; intros self stdout.
  - exists []. split; [simpl; now rewrite app_nil_r | simpl; lia].
  - simpl. destruct (iterate_output line self stdout) as (a & Ha & Hout).
    destruct (iterate cls json_loads line self stdout) as [s o|s o|e s o]; subst o.
    + destruct (IH s (stdout ++ a)) as (b & -> & Hb).
      exists (a ++ b). split; [now rewrite app_assoc | rewrite length_app; lia].
    + exists a. split; [reflexivity | lia].
    + exists a. split; [reflexivity | lia].
Qed.

(** X8.  When the loader and the closing of the collaborators return
    normally, [run] returns normally on every input, and it leaves the
    transport closed. *)
Theorem run_returns_and_closes stdin self :
  loader_returns cls ->
  (forall c, fst (close_collaborators cls c) = Ok tt) ->
  exists self' stdout,
    run cls json_loads stdin self = (Ok tt, self', stdout)
    /\ _closed (transport self') = true.
Proof.
  intros Hload Hclose. unfold run.
  destruct (initialize_returns cls Hload self) as (s1 & -> & _).
  pose proof (loop_returns stdin s1 []) as Hl.
  destruct (loop cls json_loads stdin s1 []) as [[r s2] out]. simpl in Hl. subst r.
  unfold close, bind, base_close, bind, modify, logger, modify.
  pose proof (Hclose (collaborators s2)) as Hc.
  destruct (close_collaborators cls (collaborators s2)) as [[[]|e] c];
    simpl in Hc; [|discriminate].
  eexists _, out. split; reflexivity.
Qed.

End StreamEdges.

Section ZetaChainNames.

Context {C : Type} (managers : string -> handler C)
        (connection_close : C -> outcome unit * C).

Lemma tool_prefix_injective (a b : string) : "tool_" ^^ a = "tool_" ^^ b -> a = b.
Proof. simpl. now intros [= ->]. Qed.

(** A name has a [tool_] method exactly when a descriptor carries it. *)
Lemma method_iff_listed (name : string) :
  tool_method (ZetaChainMCPServer managers connection_close) ("tool_" ^^ name) <> None
  <-> In name zetachain_tool_names.
Proof.
  unfold ZetaChainMCPServer, tool_method.
  destruct (existsb (String.eqb ("tool_" ^^ name)) zetachain_tool_methods) eqn:He.
  - split; [intros _|discriminate].
    apply existsb_exists in He. destruct He as (m & Hin & Heq).
    apply String.eqb_eq in Heq. subst m.
    rewrite <- zetachain_methods in Hin.
    apply in_map_iff in Hin. destruct Hin as (n & Hn & Hin).
    apply tool_prefix_injective in Hn. now subst n.
  - split; [intros H; now elim H|]. intros Hin.
    assert (existsb (String.eqb ("tool_" ^^ name)) zetachain_tool_methods = true)
      as Ht; [|congruence].
    apply existsb_exists. exists ("tool_" ^^ name). split; [|apply String.eqb_refl].
    rewrite <- zetachain_methods. apply in_map_iff. now exists name.
Qed.

(** X9.  On the ZetaChain server the tools that are listed are the tools
    that can be called: [call_tool] on a string name raises
    [Tool '<name>' not found] exactly when no descriptor of
    [zetachain_tools] has that name, and returns an envelope otherwise. *)
Theorem listed_iff_callable (name : string) (arguments : value) (self : MCPServer C) :
  let Z := ZetaChainMCPServer managers connection_close in
  (In (VStr name) (map descriptor_name zetachain_tools)
   <-> exists envelope self', call_tool Z (VStr name) arguments self = (Ok envelope, self'))
  /\ (~ In (VStr name) (map descriptor_name zetachain_tools)
      <-> call_tool Z (VStr name) arguments self
          = (Raise (ValueError ("Tool '" ^^ name ^^ "' not found")), self)).
Proof.
  intros Z.
  assert (Hlisted : In (VStr name) (map descriptor_name zetachain_tools)
                    <-> In name zetachain_tool_names).
  { rewrite zetachain_names. split.
    - intros (n & [= ->] & Hn)%in_map_iff. exact Hn.
    - intros Hn. apply in_map_iff. now exists name. }
  rewrite Hlisted, <- (method_iff_listed name). fold Z.
  destruct (tool_method Z ("tool_" ^^ name)) as [h|] eqn:Hh.
  - assert (Hk := call_tool_known Z (VStr name) arguments self h Hh).
    split; split.
    + intros _. rewrite Hk.
      destruct (h arguments (collaborators self)) as [[r|e] c]; eauto.
    + discriminate.
    + intros Hn. now elim Hn.
    + intros Hr. rewrite Hk in Hr.
      destruct (h arguments (collaborators self)) as [[r|e] c]; discriminate.
  - assert (Hu := call_tool_unknown Z (VStr name) arguments self Hh).
    split; split.
    + intros Hn. now elim Hn.
    + intros (envelope & s & Hr). rewrite Hu in Hr. discriminate.
    + intros _. exact Hu.
    + intros _ Hn. now elim Hn.
Qed.

End ZetaChainNames.

(* ===================================================================== *)
(** * The HTTP endpoints *)
(* ===================================================================== *)

Section HttpEndpoints.

Import http_server.

Context {C : Type} (managers : string -> handler C)
        (connection_close : C -> outcome unit * C).

Local Abbreviation Srv := (Server managers connection_close).

Implicit Types (g : app C) (self : MCPServer C).

(** The three tools behind [GET /stats], [GET /chains] and
    [GET /network/info] are methods of the class. *)
Lemma call_tool_bound (name : string) (arguments : value) self :
  In name zetachain_tool_names ->
  exists kvs self',
    call_tool Srv (VStr name) arguments self = (Ok (VDict kvs), self')
    /\ ((exists r c,
           managers ("tool_" ^^ name) arguments (collaborators self) = (Ok r, c)
           /\ VDict kvs = envelope_success r /\ self' = set_collaborators c self)
        \/ (exists e c,
              managers ("tool_" ^^ name) arguments (collaborators self) = (Raise e, c)
              /\ VDict kvs = envelope_failure (exn_text e))).
Proof.
  intros Hin.
  assert (Hm : tool_method Srv ("tool_" ^^ py_str (VStr name))
               = Some (managers ("tool_" ^^ name))).
  { pose proof (proj2 (method_iff_listed managers connection_close name) Hin) as Hne.
    change (tool_method Srv ("tool_" ^^ py_str (VStr name)))
      with (if existsb (String.eqb ("tool_" ^^ name)) zetachain_tool_methods
            then Some (managers ("tool_" ^^ name)) else None).
    change (tool_method (ZetaChainMCPServer managers connection_close) ("tool_" ^^ name))
      with (if existsb (String.eqb ("tool_" ^^ name)) zetachain_tool_methods
            then Some (managers ("tool_" ^^ name)) else None) in Hne.
    destruct (existsb _ zetachain_tool_methods); [reflexivity | now elim Hne]. }
  rewrite (call_tool_known Srv (VStr name) arguments self _ Hm).
  destruct (managers ("tool_" ^^ name) arguments (collaborators self)) as [[r|e] c] eqn:Hh.
  - eexists _, _. split; [reflexivity|]. left. now exists r, c.
  - eexists _, _. split; [reflexivity|]. right. now exists e, c.
Qed.

(** X10.  [POST /mcp]: without a server it raises the 503; with one it
    returns, for every request, the response of [handle_request], a
    well-formed response with the [id] of the request; the handler's own
    [except] branch is never taken, and nothing is logged by the adapter. *)
Theorem http_mcp_always_answers (request : MCPRequest) g :
  (zetachain_mcp_server g = None ->
   handle_mcp_request managers connection_close request g = (not_initialized, g))
  /\ (forall self,
        zetachain_mcp_server g = Some self ->
        exists response self',
          handle_request Srv (VDict (dict request)) self = (Ok response, self')
          /\ handle_mcp_request managers connection_close request g
             = (Return response, with_server self' g)
          /\ well_formed_response response = true
          /\ response_field response "id" = Some (VStr (id request))).
Proof.
  split.
  - intros Hn. unfold handle_mcp_request. now rewrite Hn.
  - intros self Hs.
    destruct (handle_request_returns Srv (dict request) self)
      as (response & self' & Hr & Hshape).
    exists response, self'. split; [exact Hr|].
    split; [unfold handle_mcp_request; now rewrite Hs, Hr|].
    destruct Hshape as [(x & ->)|(code & m & ->)]; split; reflexivity.
Qed.

(** X11.  [POST /tools/call] with a server: a name that no descriptor
    carries gives status 500 with the text [Tool '<name>' not found]; a
    listed name gives a body with the envelope of [call_tool], also when
    the tool itself failed. *)
Theorem http_call_tool_status (tool_name : string) (args : list (string * value)) g self :
  zetachain_mcp_server g = Some self ->
  (~ In tool_name zetachain_tool_names ->
   call_tool_http managers connection_close tool_name args g
   = (HTTPException 500 ("Tool '" ^^ tool_name ^^ "' not found"), with_server self g))
  /\ (In tool_name zetachain_tool_names ->
      exists envelope self',
        call_tool Srv (VStr tool_name) (VDict args) self = (Ok envelope, self')
        /\ call_tool_http managers connection_close tool_name args g
           = (Return (VDict [("tool_name", VStr tool_name); ("result", envelope)]),
              with_server self' g)
        /\ ((exists r, envelope = envelope_success r)
            \/ (exists m, envelope = envelope_failure m))).
Proof.
  intros Hs. split.
  - intros Hnot.
    assert (Hm : tool_method Srv ("tool_" ^^ py_str (VStr tool_name)) = None).
    { destruct (tool_method Srv ("tool_" ^^ py_str (VStr tool_name))) eqn:Ht;
        [|reflexivity].
      elim Hnot. apply (method_iff_listed managers connection_close).
      unfold Server in Ht. simpl py_str in Ht. now rewrite Ht. }
    unfold call_tool_http. rewrite Hs, (call_tool_unknown Srv _ _ _ Hm). reflexivity.
  - intros Hin.
    destruct (call_tool_bound tool_name (VDict args) self Hin)
      as (kvs & self' & Hc & Hcase).
    exists (VDict kvs), self'. split; [exact Hc|].
    split; [unfold call_tool_http; now rewrite Hs, Hc|].
    destruct Hcase as [(r & c & _ & -> & _)|(e & c & _ & ->)]; eauto.
Qed.

(** X12.  [GET /stats] with a server never raises: it calls the three
    statistics tools in turn and returns their results under
    [omnichain], [governance] and [defi]; a tool whose collaborator
    raised contributes the empty dict. *)
Theorem http_stats_never_fails g self :
  zetachain_mcp_server g = Some self ->
  exists e1 s1 e2 s2 e3 s3,
    call_tool Srv (VStr "get_omnichain_stats") (VDict []) self = (Ok (VDict e1), s1)
    /\ call_tool Srv (VStr "get_governance_stats") (VDict []) s1 = (Ok (VDict e2), s2)
    /\ call_tool Srv (VStr "get_defi_stats") (VDict []) s2 = (Ok (VDict e3), s3)
    /\ get_platform_stats managers connection_close g
       = (Return (VDict [("omnichain", dict_get e1 "result" (VDict []));
                         ("governance", dict_get e2 "result" (VDict []));
                         ("defi", dict_get e3 "result" (VDict []))]),
          with_server s3 g)
    /\ (forall x c,
          managers "tool_get_omnichain_stats" (VDict []) (collaborators self) = (Raise x, c) ->
          dict_get e1 "result" (VDict []) = VDict [])
    /\ (forall r c,
          managers "tool_get_omnichain_stats" (VDict []) (collaborators self) = (Ok r, c) ->
          dict_get e1 "result" (VDict []) = r).
Proof.
  intros Hs.
  assert (H1 : In "get_omnichain_stats" zetachain_tool_names) by (simpl; tauto).
  assert (H2 : In "get_governance_stats" zetachain_tool_names) by (simpl; tauto).
  assert (H3 : In "get_defi_stats" zetachain_tool_names) by (simpl; tauto).
  destruct (call_tool_bound _ (VDict []) self H1) as (e1 & s1 & Hc1 & Hcase).
  destruct (call_tool_bound _ (VDict []) s1 H2) as (e2 & s2 & Hc2 & _).
  destruct (call_tool_bound _ (VDict []) s2 H3) as (e3 & s3 & Hc3 & _).
  exists e1, s1, e2, s2, e3, s3.
  split; [exact Hc1|]. split; [exact Hc2|]. split; [exact Hc3|]. split.
  { unfold get_platform_stats, platform_stats, bind, lift, ret.
    now rewrite Hs, Hc1, Hc2, Hc3. }
  split.
  - intros x c Hx. destruct Hcase as [(r & c' & Hr & _)|(e & c' & _ & [= ->])].
    + simpl in Hr. congruence.
    + reflexivity.
  - intros r c Hr. destruct Hcase as [(r' & c' & Hr' & [= ->] & _)|(e & c' & He & _)].
    + simpl in Hr'. rewrite Hr in Hr'. now injection Hr' as <- _.
    + simpl in He. congruence.
Qed.


(** X14.  After the application has started, whatever calls reach the
    server, [GET /tools] returns the 28 descriptors of the loader and the
    count 28. *)
Theorem http_tools_after_startup (c : C) (calls : list call) :
  exists g self,
    startup managers connection_close c not_started = (Ok tt, g)
    /\ zetachain_mcp_server g = Some self
    /\ fst (list_tools_http (with_server (perform_all Srv calls self) g))
       = Return (VDict [("tools", VList zetachain_tools); ("count", VInt 28)]).
Proof.
  unfold startup.
  destruct (initialize_returns Srv (zetachain_loader_returns managers connection_close)
              (new_server c)) as (self & Hs & Hr & Hi).
  rewrite Hs. eexists _, self. split; [reflexivity|]. split; [reflexivity|].
  assert (Ht : tools self = zetachain_tools).
  { destruct Hr as [(_ & Hf & _)|(_ & _ & _ & Ht)]; [|exact Ht].
    rewrite Hi in Hf. discriminate. }
  destruct (zetachain_registry_fixed managers connection_close calls self Hi)
    as (Ht' & _).
  unfold list_tools_http, with_server, list_tools, bind, get, ret.
  cbn [zetachain_mcp_server fst]. unfold Server. rewrite Ht', Ht. reflexivity.
Qed.

End HttpEndpoints.

(* ===================================================================== *)
(** * Configuration, validation and bridge information *)
(* ===================================================================== *)

Lemma lower_char_idempotent (c : ascii) : lower_char (lower_char c) = lower_char c.
Proof. destruct c as [[] [] [] [] [] [] [] []]; reflexivity. Qed.

Lemma lower_idempotent (s : string) : lower (lower s) = lower s.
Proof.
  induction s as [|c s IH]; [reflexivity|].
  simpl. now rewrite lower_char_idempotent, IH.
Qed.

Lemma dict_lookup_in (kvs : list (string * value)) (key : string) (v : value) :
  dict_lookup kvs key = Some v -> In (key, v) kvs.
Proof.
  induction kvs as [|[k x] kvs IH]; [discriminate|].
  simpl. destruct (String.eqb_spec k key) as [->|_].
  - intros [= ->]. now left.
  - intros H. right. now apply IH.
Qed.

Lemma dict_lookup_none (kvs : list (string * value)) (key : string) :
  ~ In key (map fst kvs) -> dict_lookup kvs key = None.
Proof.
  induction kvs as [|[k x] kvs IH]; [reflexivity|].
  simpl. intros Hn. destruct (String.eqb_spec k key) as [->|_].
  - elim Hn. now left.
  - apply IH. intros Hin. apply Hn. now right.
Qed.

(** X15.  The lookup of a chain ignores the case of the name asked for;
    and a configuration it returns sits under a key that is in lower
    case, so an entry stored under a key with a capital is never found. *)
Theorem chain_lookup_ignores_case (self : config.ZetaChainConfig) (chain_name : string) :
  config.get_chain_config self (lower chain_name) = config.get_chain_config self chain_name
  /\ config.get_rpc_url self (lower chain_name) = config.get_rpc_url self chain_name
  /\ config.get_explorer_url self (lower chain_name)
     = config.get_explorer_url self chain_name
  /\ (forall v,
        dict_lookup (config.supported_chains self) (lower chain_name) = Some v ->
        config.get_chain_config self chain_name = v
        /\ exists key, lower key = key /\ In (key, v) (config.supported_chains self)).
Proof.
  assert (H : config.get_chain_config self (lower chain_name)
              = config.get_chain_config self chain_name).
  { unfold config.get_chain_config. now rewrite lower_idempotent. }
  split; [exact H|].
  split; [unfold config.get_rpc_url, config.get_field; now rewrite H|].
  split; [unfold config.get_explorer_url, config.get_field; now rewrite H|].
  intros v Hv. split.
  - unfold config.get_chain_config, dict_get. now rewrite Hv.
  - exists (lower chain_name). split; [apply lower_idempotent | now apply dict_lookup_in].
Qed.

(** X16.  [validate_chain_name] and the default configuration disagree:
    of the names the validator accepts, [bitcoin] has no configuration,
    and the configured [avalanche], [optimism] and [arbitrum] are
    rejected. *)
Theorem chain_name_validator_vs_config (chain_name : string) :
  (validation.validate_chain_name chain_name = true ->
   (config.get_chain_config config.default chain_name <> VNone
    <-> lower chain_name <> "bitcoin"))
  /\ (In (lower chain_name) ["avalanche"; "optimism"; "arbitrum"] ->
      validation.validate_chain_name chain_name = false
      /\ config.get_chain_config config.default chain_name <> VNone).
Proof.
  unfold validation.validate_chain_name, config.get_chain_config. split.
  - intros Hv. apply existsb_exists in Hv. destruct Hv as (n & Hin & Heq).
    apply String.eqb_eq in Heq. rewrite Heq. simpl in Hin.
    repeat (destruct Hin as [<-|Hin];
            [split; [discriminate + (intros H; now elim H)
                    | discriminate + (intros H; now elim H)]|]).
    contradiction.
  - intros Hin. simpl in Hin.
    repeat (destruct Hin as [<-|Hin]; [split; [reflexivity | discriminate]|]).
    contradiction.
Qed.

Section TransactionHash.

Import validation.

Lemma append_length (a b : string) :
  String.length (a ^^ b) = String.length a + String.length b.
Proof. induction a as [|c a IH]; simpl; [reflexivity | now rewrite IH]. Qed.

(** What the run of hex digits splits off. *)
Lemma hex_run_split (s : string) :
  exists pre,
    s = pre ^^ snd (hex_run s)
    /\ String.length pre = fst (hex_run s)
    /\ all_hex pre = true.
Proof.
  induction s as [|c s (pre & Hs & Hl & Ha)]; [now exists ""|].
  simpl. destruct (is_hex c) eqn:Hc.
  - destruct (hex_run s) as [k tail]. simpl in *.
    exists (String c pre). simpl. rewrite Hc, Ha, Hl, <- Hs. now repeat split.
  - now exists "".
Qed.

(** The run over hex digits followed by anything. *)
Lemma hex_run_append (pre tail : string) :
  all_hex pre = true ->
  hex_run (pre ^^ tail)
  = (String.length pre + fst (hex_run tail), snd (hex_run tail)).
Proof.
  induction pre as [|c pre IH]; simpl.
  - intros _. now destruct (hex_run tail).
  - intros [Hc Ha]%andb_prop. rewrite Hc, (IH Ha). reflexivity.
Qed.

(** A text that is not empty ends in a last character. *)
Lemma last_char (s : string) :
  s <> "" -> exists init c, s = init ^^ String c "".
Proof.
  induction s as [|c s IH]; [now intros H; elim H|]. intros _.
  destruct s as [|d s].
  - now exists "", c.
  - destruct IH as (init & l & Hs); [discriminate|].
    exists (String c init), l. simpl. now rewrite <- Hs.
Qed.

Lemma all_hex_append (a b : string) :
  all_hex (a ^^ b) = all_hex a && all_hex b.
Proof.
  induction a as [|c a IH]; simpl; [reflexivity|].
  now rewrite IH, andb_assoc.
Qed.

Lemma startswith_0x (s : string) :
  startswith "0x" s = true -> s = "0x" ^^ drop 2 s.
Proof.
  destruct s as [|a [|b s]].
  - discriminate.
  - change (startswith "0x" (String a "")) with (Ascii.eqb "0" a && false).
    now rewrite andb_false_r.
  - change (startswith "0x" (String a (String b s)))
      with (Ascii.eqb "0" a && (Ascii.eqb "x" b && true)).
    rewrite andb_true_r. intros [Ha Hb]%andb_prop.
    apply Ascii.eqb_eq in Ha, Hb. now subst.
Qed.

(** The accepted bodies: 64 characters, 63 hex digits and then a hex
    digit or a line feed. *)
Lemma match_hex_64 (body : string) :
  String.length body = 64 ->
  (match_hex body = true
   <-> exists digits last,
        body = digits ^^ String last ""
        /\ String.length digits = 63
        /\ all_hex digits = true
        /\ (is_hex last = true \/ last = "010"%char)).
Proof.
  intros Hlen. split.
  - unfold match_hex. destruct (hex_run_split body) as (pre & Hs & Hl & Ha).
    destruct (hex_run body) as [k tail]. simpl in *.
    intros [_ Htail]%andb_prop. apply orb_prop in Htail.
    destruct Htail as [Ht|Ht]; apply String.eqb_eq in Ht; subst tail.
    + assert (Hbody : body = pre) by (rewrite Hs; clear; induction pre; simpl; congruence).
      destruct (last_char body) as (digits & last & Hd);
        [intros ->; discriminate|].
      exists digits, last. split; [exact Hd|].
      assert (Hlen' := Hlen). rewrite Hd, append_length in Hlen'. simpl in Hlen'.
      split; [lia|].
      rewrite <- Hbody, Hd, all_hex_append in Ha. apply andb_prop in Ha.
      destruct Ha as [Hdig Hlast]. simpl in Hlast. rewrite andb_true_r in Hlast.
      split; [exact Hdig | now left].
    + exists pre, "010"%char. split; [exact Hs|].
      rewrite Hs, append_length in Hlen. simpl in Hlen.
      split; [lia|]. split; [exact Ha | now right].
  - intros (digits & last & -> & Hl & Ha & [Hlast| ->]); unfold match_hex.
    + assert (Hall : all_hex (digits ^^ String last "") = true)
        by (rewrite all_hex_append, Ha; simpl; now rewrite Hlast).
      replace (digits ^^ String last "") with ((digits ^^ String last "") ^^ "")
        by (generalize (digits ^^ String last ""); intros s; induction s; simpl; congruence).
      rewrite (hex_run_append _ "" Hall), append_length, Hl. reflexivity.
    + rewrite (hex_run_append digits _ Ha), Hl. reflexivity.
Qed.

(** X17.  [validate_transaction_hash] accepts a text exactly when, one
    leading [0x] dropped, it has 64 characters of which the first 63 are
    hex digits and the last is a hex digit or a line feed: [$] also
    matches before a line feed that ends the text. *)
Theorem transaction_hash_accepted (tx_hash : string) :
  validate_transaction_hash tx_hash = true
  <-> exists body digits last,
        ((tx_hash = "0x" ^^ body) \/ (tx_hash = body /\ startswith "0x" tx_hash = false))
        /\ body = digits ^^ String last ""
        /\ String.length digits = 63
        /\ all_hex digits = true
        /\ (is_hex last = true \/ last = "010"%char).
Proof.
  unfold validate_transaction_hash. split.
  - set (body := if startswith "0x" tx_hash then drop 2 tx_hash else tx_hash).
    destruct (Nat.eqb_spec (String.length body) 64) as [Hlen|]; [|discriminate].
    simpl. intros Hm.
    destruct (proj1 (match_hex_64 body Hlen) Hm) as (digits & last & Hb & Hrest).
    exists body, digits, last. split; [|split; [exact Hb | exact Hrest]].
    subst body. destruct (startswith "0x" tx_hash) eqn:Hs.
    + left. now apply startswith_0x.
    + now right.
  - intros (body & digits & last & Hshape & Hb & Hl & Hrest).
    assert (Hlen : String.length body = 64)
      by (rewrite Hb, append_length, Hl; reflexivity).
    assert (Hbody : (if startswith "0x" tx_hash then drop 2 tx_hash else tx_hash) = body).
    { destruct Hshape as [->|[-> ->]]; reflexivity. }
    rewrite Hbody, Hlen. simpl.
    apply (match_hex_64 body Hlen). now exists digits, last.
Qed.

End TransactionHash.

Section BridgeInfo.


End BridgeInfo.

(* ===================================================================== *)
(** * The governance manager *)
(* ===================================================================== *)

Section Governance.

Import governance.

Context (validate_address : value -> bool)
        (other_add : value -> value -> outcome value)
        (percentages : tally -> outcome (option (string * string * string))).

Implicit Types (self : GovernanceManager) (p : proposal)
         (ps : list (string * proposal)).

Local Open Scope Z_scope.

Local Abbreviation vote_call := (vote_on_proposal validate_address other_add).

Lemma update_forall (P : proposal -> Prop) ps key f :
  (forall p, P p -> P (f p)) ->
  Forall (fun kp => P (snd kp)) ps ->
  Forall (fun kp => P (snd kp)) (update ps key f).
Proof.
  intros Hf. induction 1 as [|[k p] ps Hp Hps IH]; simpl; [constructor|].
  destruct (String.eqb k key); constructor; simpl; auto.
Qed.

Lemma lookup_update_same ps key f p :
  lookup ps key = Some p -> lookup (update ps key f) key = Some (f p).
Proof.
  induction ps as [|[k q] ps IH]; simpl; [discriminate|].
  destruct (String.eqb k key) eqn:Hk; simpl; rewrite Hk; [now intros [= ->] | exact IH].
Qed.

Lemma lookup_update_other ps key f other :
  other <> key -> lookup (update ps key f) other = lookup ps other.
Proof.
  intros Hne. induction ps as [|[k q] ps IH]; simpl; [reflexivity|].
  destruct (String.eqb_spec k key) as [->|Hk]; simpl.
  - destruct (String.eqb_spec key other) as [->|_]; [now elim Hne | reflexivity].
  - destruct (String.eqb k other); [reflexivity | exact IH].
Qed.

Lemma update_keys ps key f : map fst (update ps key f) = map fst ps.
Proof.
  induction ps as [|[k q] ps IH]; simpl; [reflexivity|].
  destruct (String.eqb k key); simpl; [reflexivity | now rewrite IH].
Qed.

(** Two changes of the proposal under one key are one change. *)
Lemma update_update ps key f g :
  update (update ps key f) key g = update ps key (fun p => g (f p)).
Proof.
  induction ps as [|[k q] ps IH]; simpl; [reflexivity|].
  destruct (String.eqb k key) eqn:Hk; simpl; rewrite Hk; [reflexivity | now rewrite IH].
Qed.

Lemma lookup_in ps key p : lookup ps key = Some p -> In (key, p) ps.
Proof.
  induction ps as [|[k q] ps IH]; simpl; [discriminate|].
  destruct (String.eqb_spec k key) as [->|_].
  - intros [= ->]. now left.
  - intros H. right. now apply IH.
Qed.

(** Adding an integer to an integer count is exact and cannot fail. *)
Lemma add_integers x w k :
  as_int w = Some k -> add other_add (VInt x) w = Ok (VInt (x + k)).
Proof. unfold add. simpl. now intros ->. Qed.

Lemma voted_consistent v k p y n a :
  yes (votes p) = VInt y -> no (votes p) = VInt n -> abstain (votes p) = VInt a ->
  consistent (voted v (VInt (chosen v y n a + k)) (VInt (y + n + a + k)) p).
Proof.
  intros Hy Hn Ha. unfold consistent, voted, set_total, set_count, chosen. simpl.
  destruct (String.eqb v "yes") eqn:E1; [|destruct (String.eqb v "no") eqn:E2]; simpl.
  - exists (y + k), n, a. rewrite Hn, Ha. repeat split. f_equal. lia.
  - exists y, (n + k), a. rewrite Hy, Ha. repeat split. f_equal. lia.
  - exists y, n, (a + k). rewrite Hy, Hn. repeat split. f_equal. lia.
Qed.

(** What [vote_on_proposal] does with an integer power on a proposal
    whose counts are integers, case by case. *)
Lemma vote_cases t i a v w k self :
  as_int w = Some k ->
  Forall (fun kp => consistent (snd kp)) (proposals self) ->
  (exists key p vote cy cn ca,
      i = VStr key /\ lookup (proposals self) key = Some p
      /\ validate_address a = true
      /\ v = VStr vote /\ In vote vote_options
      /\ startTime p <= t <= endTime p
      /\ yes (votes p) = VInt cy /\ no (votes p) = VInt cn /\ abstain (votes p) = VInt ca
      /\ totalVotingPower p = VInt (cy + cn + ca)
      /\ vote_call t i a v w self
         = (VDict [("success", VBool true); ("message", VStr "Vote cast successfully");
                   ("proposalId", i); ("vote", v); ("votingPower", w)],
            add_log INFO
              ("Vote cast: " ^^ py_str a ^^ " voted " ^^ py_str v ^^ " on " ^^ py_str i)
              (set_proposals
                 (update (proposals self) key
                    (voted vote (VInt (chosen vote cy cn ca + k))
                       (VInt (cy + cn + ca + k))))
                 self)))
  \/ (exists message self',
        vote_call t i a v w self = (error message, self')
        /\ proposals self' = proposals self
        /\ ~ (exists key p vote,
                i = VStr key /\ lookup (proposals self) key = Some p
                /\ validate_address a = true
                /\ v = VStr vote /\ In vote vote_options
                /\ startTime p <= t <= endTime p)).
Proof.
  intros Hw Hall. unfold vote_on_proposal, find.
  destruct i as [ | | | |key| | | ];
    try (right; eexists _, _; split; [reflexivity|]; split; [reflexivity|];
         intros (k' & q & vv & Hi & _); discriminate).
  destruct (lookup (proposals self) key) as [p|] eqn:Hl.
  2:{ right. eexists _, _. split; [reflexivity|]. split; [reflexivity|].
      intros (k' & q & vv & [= <-] & Hq & _). congruence. }
  destruct (validate_address a) eqn:Ha; cbn [negb].
  2:{ right. eexists _, _. split; [reflexivity|]. split; [reflexivity|].
      intros (k' & q & vv & _ & _ & Hq & _). discriminate. }
  destruct (option_of v) as [vote|] eqn:Hv.
  2:{ right. eexists _, _. split; [reflexivity|]. split; [reflexivity|].
      intros (k' & q & vv & _ & _ & _ & -> & Hin & _).
      unfold option_of in Hv.
      assert (existsb (String.eqb vv) vote_options = true) as Ht.
      { apply existsb_exists. exists vv. split; [exact Hin | apply String.eqb_refl]. }
      rewrite Ht in Hv. discriminate. }
  assert (Hvote : v = VStr vote /\ In vote vote_options).
  { unfold option_of in Hv. destruct v as [ | | | |s| | | ]; try discriminate.
    destruct (existsb (String.eqb s) vote_options) eqn:He; [|discriminate].
    injection Hv as <-. split; [reflexivity|].
    apply existsb_exists in He. destruct He as (x & Hx & Heq).
    apply String.eqb_eq in Heq. now subst x. }
  destruct Hvote as (-> & Hin).
  destruct (Z.ltb_spec (endTime p) t).
  { right. eexists _, _. split; [reflexivity|]. split; [reflexivity|].
    intros (k' & q & vv & [= <-] & Hq & _ & _ & _ & Ht). rewrite Hl in Hq.
    injection Hq as <-. lia. }
  destruct (Z.ltb_spec t (startTime p)).
  { right. eexists _, _. split; [reflexivity|]. split; [reflexivity|].
    intros (k' & q & vv & [= <-] & Hq & _ & _ & _ & Ht). rewrite Hl in Hq.
    injection Hq as <-. lia. }
  assert (Hp : consistent p).
  { rewrite Forall_forall in Hall. exact (Hall (key, p) (lookup_in _ _ _ Hl)). }
  destruct Hp as (cy & cn & ca & Hy & Hn & Hab & Htot).
  left. exists key, p, vote, cy, cn, ca.
  repeat (split; [first [reflexivity | assumption | lia]|]).
  assert (Hcount : count vote p = VInt (chosen vote cy cn ca)).
  { unfold count, chosen. destruct (String.eqb vote "yes"); [exact Hy|].
    destruct (String.eqb vote "no"); [exact Hn | exact Hab]. }
  rewrite Hcount, (add_integers _ w k Hw), Htot, (add_integers _ w k Hw).
  cbn [set_proposals proposals]. rewrite update_update. reflexivity.
Qed.


Lemma update_forall_at (P : proposal -> Prop) ps key f p :
  lookup ps key = Some p ->
  P (f p) ->
  Forall (fun kp => P (snd kp)) ps ->
  Forall (fun kp => P (snd kp)) (update ps key f).
Proof.
  intros Hl Hf. induction 1 as [|[k q] ps Hq Hps IH]; simpl in *; [constructor|].
  destruct (String.eqb k key).
  - injection Hl as ->. now constructor.
  - constructor; [exact Hq | now apply IH].
Qed.

Lemma set_percentages_consistent texts p :
  consistent p -> consistent (set_percentages texts p).
Proof. destruct texts; intros H; exact H. Qed.

(** One call keeps the integer tallies. *)
Lemma apply_consistent op self :
  integer_vote op ->
  Forall (fun kp => consistent (snd kp)) (proposals self) ->
  Forall (fun kp => consistent (snd kp))
    (proposals (apply validate_address other_add percentages op self)).
Proof.
  destruct op as [t i a v w|i|s]; simpl; intros Hint H.
  - destruct (as_int w) as [k|] eqn:Hw; [|now elim Hint].
    destruct (vote_cases t i a v w k self Hw H)
      as [(key & p & vote & cy & cn & ca & _ & Hl & _ & _ & _ & _ & Hy & Hn & Ha & _ & ->)
         |(m & s' & -> & Hs & _)]; [|simpl; now rewrite Hs].
    simpl. apply (update_forall_at _ _ _ _ p Hl); [|exact H].
    now apply voted_consistent.
  - unfold get_proposal.
    destruct (find (proposals self) i) as [[[key p]|]|e]; try exact H.
    destruct (percentages (votes p)) as [texts|e]; [|exact H].
    simpl. apply update_forall; [apply set_percentages_consistent | exact H].
  - exact H.
Qed.

(** X19.  As long as every vote carries an integer power, in every
    proposal the three counts are integers and the total voting power is
    their sum: this holds for the initial data and is kept by every vote
    and every query. *)
Theorem tally_invariant (t1 t2 t3 t4 : Z) (ops : list operation) :
  Forall integer_vote ops ->
  Forall (fun kp => consistent (snd kp))
    (proposals
       (apply_all validate_address other_add percentages ops
          (new_manager t1 t2 t3 t4))).
Proof.
  intros Hops. unfold apply_all.
  assert (Hinit : Forall (fun kp => consistent (snd kp))
                    (proposals (new_manager t1 t2 t3 t4))).
  { repeat constructor; simpl; eexists _, _, _; repeat split. }
  revert Hinit. generalize (new_manager t1 t2 t3 t4).
  induction Hops as [|op ops Hop _ IH]; intros self H; [exact H|].
  simpl. apply IH. now apply apply_consistent.
Qed.

(** X20.  On a manager whose tallies are integers, a vote with an integer
    power is accepted exactly when the proposal exists, the address is
    valid, the option is one of the three and the time lies within the
    voting period, both ends included; a vote that is not accepted
    returns an error and leaves every proposal as it was. *)
Theorem vote_accepted_iff t i a v w k self :
  as_int w = Some k ->
  Forall (fun kp => consistent (snd kp)) (proposals self) ->
  let r := fst (vote_call t i a v w self) in
  let self' := snd (vote_call t i a v w self) in
  (response_field r "success" = Some (VBool true)
   <-> exists key p vote,
        i = VStr key /\ lookup (proposals self) key = Some p
        /\ validate_address a = true
        /\ v = VStr vote /\ In vote vote_options
        /\ startTime p <= t <= endTime p)
  /\ (response_field r "success" <> Some (VBool true) ->
      proposals self' = proposals self /\ exists message, r = error message).
Proof.
  intros Hw Hall.
  destruct (vote_cases t i a v w k self Hw Hall)
    as [(key & p & vote & cy & cn & ca & Hi & Hl & Ha & Hv & Hin & Ht & _ & _ & _ & _ & ->)
       |(m & s' & -> & Hs & Hn)]; simpl.
  - split; [split; [intros _; now exists key, p, vote | reflexivity]|].
    intros H. now elim H.
  - split; [split; [discriminate | intros H; now elim Hn]|].
    intros _. split; [exact Hs | now exists m].
Qed.

(** X21.  On a manager whose tallies are integers, an accepted vote with
    an integer power adds the power, whatever its sign, to the chosen
    count and to the total of that proposal; the other two counts, every
    other proposal and the order of the proposals stay as they were.  No
    voter is recorded: the same call is accepted again. *)
Theorem vote_effect t key a vote w k self p :
  as_int w = Some k ->
  Forall (fun kp => consistent (snd kp)) (proposals self) ->
  lookup (proposals self) key = Some p ->
  validate_address a = true ->
  In vote vote_options ->
  startTime p <= t <= endTime p ->
  let self' := snd (vote_call t (VStr key) a (VStr vote) w self) in
  exists cy cn ca p',
    yes (votes p) = VInt cy /\ no (votes p) = VInt cn /\ abstain (votes p) = VInt ca
    /\ lookup (proposals self') key = Some p'
    /\ totalVotingPower p' = VInt (cy + cn + ca + k)
    /\ yes (votes p') = VInt (cy + (if String.eqb vote "yes" then k else 0))
    /\ no (votes p') = VInt (cn + (if String.eqb vote "no" then k else 0))
    /\ abstain (votes p') = VInt (ca + (if String.eqb vote "abstain" then k else 0))
    /\ startTime p' = startTime p /\ endTime p' = endTime p
    /\ (forall other, other <> key ->
          lookup (proposals self') other = lookup (proposals self) other)
    /\ map fst (proposals self') = map fst (proposals self)
    /\ response_field (fst (vote_call t (VStr key) a (VStr vote) w self')) "success"
       = Some (VBool true).
Proof.
  intros Hw Hall Hl Ha Hv Ht self'.
  destruct (vote_cases t (VStr key) a (VStr vote) w k self Hw Hall)
    as [(key' & q & vote' & cy & cn & ca & [= <-] & Hq & _ & [= <-] & _ & _
         & Hy & Hn & Hab & _ & Hr)
       |(m & s' & _ & _ & Hnot)].
  2:{ elim Hnot. now exists key, p, vote. }
  rewrite Hl in Hq. injection Hq as <-.
  subst self'. rewrite Hr. cbn [snd add_log set_proposals proposals].
  set (p' := voted vote (VInt (chosen vote cy cn ca + k)) (VInt (cy + cn + ca + k)) p).
  exists cy, cn, ca, p'.
  split; [exact Hy|]. split; [exact Hn|]. split; [exact Hab|].
  split; [now apply lookup_update_same|].
  assert (Hcounts :
            yes (votes p') = VInt (cy + (if String.eqb vote "yes" then k else 0))
            /\ no (votes p') = VInt (cn + (if String.eqb vote "no" then k else 0))
            /\ abstain (votes p')
               = VInt (ca + (if String.eqb vote "abstain" then k else 0))).
  { subst p'. simpl in Hv. unfold voted, set_total, set_count, chosen.
    destruct Hv as [<-|[<-|[<-|[]]]]; simpl; rewrite ?Hy, ?Hn, ?Hab;
      repeat split; f_equal; lia. }
  destruct Hcounts as (Hy' & Hn' & Hab').
  split; [reflexivity|]. split; [exact Hy'|]. split; [exact Hn'|]. split; [exact Hab'|].
  split; [reflexivity|]. split; [reflexivity|].
  split; [intros other Hne; now apply lookup_update_other|].
  split; [apply update_keys|].
  match goal with
  | |- context [vote_on_proposal _ _ t (VStr key) a (VStr vote) w ?s] =>
      destruct (vote_cases t (VStr key) a (VStr vote) w k s Hw)
        as [(k2 & q2 & v2 & y2 & n2 & a2 & _ & _ & _ & _ & _ & _ & _ & _ & _ & _ & ->)
           |(m & s' & _ & _ & Hnot)]
  end.
  - cbn [proposals add_log set_proposals].
    apply (update_forall_at _ _ _ _ p Hl); [|exact Hall].
    now apply voted_consistent.
  - reflexivity.
  - elim Hnot. exists key, p', vote. cbn [proposals add_log set_proposals].
    split; [reflexivity|]. split; [now apply lookup_update_same|].
    now repeat split.
Qed.

Lemma insert_permutation p sorted : Permutation (insert p sorted) (p :: sorted).
Proof.
  induction sorted as [|q rest IH]; simpl; [reflexivity|].
  destruct (startTime p <? startTime q); [|reflexivity].
  rewrite IH. apply perm_swap.
Qed.

Lemma sort_permutation (l : list proposal) : Permutation (sort l) l.
Proof.
  induction l as [|p l IH]; simpl; [constructor|].
  rewrite insert_permutation. now constructor.
Qed.

Lemma insert_newest_first p sorted :
  newest_first sorted -> newest_first (insert p sorted).
Proof.
  induction sorted as [|q rest IH]; simpl; [now repeat constructor|].
  intros [Hq Hrest]. destruct (Z.ltb_spec (startTime p) (startTime q)).
  - simpl. split; [|now apply IH].
    rewrite insert_permutation. constructor; [lia | exact Hq].
  - simpl. split; [|now split].
    constructor; [lia|]. eapply Forall_impl; [|exact Hq]. simpl. intros x Hx. lia.
Qed.

Lemma sort_newest_first (l : list proposal) : newest_first (sort l).
Proof.
  induction l as [|p l IH]; simpl; [exact I | now apply insert_newest_first].
Qed.

(** X22.  [get_proposals] lists each proposal of the asked status once
    (every proposal when no status, or an empty one, is given), newest
    first, and [count] is the number of proposals listed. *)
Theorem get_proposals_sorted (status_filter : option string) self :
  let ps := listed status_filter (proposals self) in
  Permutation ps
    (match status_filter with
     | Some s =>
         if truthy s
         then filter (fun p => String.eqb (status p) s) (map snd (proposals self))
         else map snd (proposals self)
     | None => map snd (proposals self)
     end)
  /\ newest_first ps
  /\ get_proposals status_filter self
     = VDict [("success", VBool true); ("proposals", VList (map proposal_dict ps));
              ("count", VInt (Z.of_nat (length ps)))]
  /\ (forall p, In p ps -> In (id p, p) (map (fun kp => (id (snd kp), snd kp))
                                            (proposals self))).
Proof.
  intros ps. subst ps. unfold listed.
  split; [apply sort_permutation|]. split; [apply sort_newest_first|].
  split; [reflexivity|].
  intros p Hin. apply (Permutation_in _ (sort_permutation _)) in Hin.
  assert (Hall : In p (map snd (proposals self))).
  { destruct status_filter as [s|]; [|exact Hin].
    destruct (truthy s); [|exact Hin]. now apply filter_In in Hin. }
  apply in_map_iff in Hall. destruct Hall as (kp & <- & Hkp).
  apply in_map_iff. now exists kp.
Qed.

End Governance.

(* ===================================================================== *)
(** * The further properties on the test doubles *)
(* ===================================================================== *)

Lemma tools_call_success_witness :
  exists text,
    json_dumps (Some 2)
      (envelope_success
         (VDict [("success", VBool true); ("wallets", VList []); ("count", VInt 0)]))
    = Ok text
    /\ handle_request Fixture.server (VDict Fixture.wallets_call) Fixture.fresh
       = (Ok (response_result (VStr "9") (text_content text)), Fixture.fresh).
Proof.
  eexists. split; [reflexivity|].
  exact (tools_call_success Fixture.server Fixture.wallets_call Fixture.wallets_params
           (Fixture.managers "tool_list_wallets") _ tt _ Fixture.fresh
           eq_refl eq_refl eq_refl eq_refl eq_refl).
Defined.

Lemma tools_call_unserializable_witness :
  handle_request Doubles.broken (VDict Doubles.make_set_call) Doubles.fresh
  = (Ok (response_error (VStr "20") (-32603)
           "Object of type set is not JSON serializable"),
     add_log ERROR
       "Error handling request tools/call: Object of type set is not JSON serializable"
       (set_collaborators 1%nat Doubles.fresh)).
Proof.
  exact (tools_call_unserializable Doubles.broken Doubles.make_set_call
           Doubles.make_set_params (fun _ c => (Ok (VObj "set"), S c)) (VObj "set") 1%nat
           (TypeError "Object of type set is not JSON serializable") Doubles.fresh
           eq_refl eq_refl eq_refl eq_refl eq_refl).
Defined.

Lemma tools_call_malformed_params_witness :
  handle_request Fixture.server (VDict Doubles.list_params_call) Fixture.fresh
  = (Ok (response_error (VInt 3) (-32603) "'list' object has no attribute 'get'"),
     add_log ERROR
       "Error handling request tools/call: 'list' object has no attribute 'get'"
       Fixture.fresh).
Proof.
  refine (tools_call_malformed_params Fixture.server Doubles.list_params_call
            Fixture.fresh eq_refl _).
  intros p. discriminate.
Defined.

Lemma initialize_loader_failure_witness :
  handle_request Doubles.broken (VDict (Fixture.request "1" "initialize" [])) Doubles.fresh
  = (Ok (response_error (VStr "1") (-32603) "no tools"),
     add_log ERROR "Error handling request initialize: no tools"
       (loaded [] 0%nat Doubles.fresh))
  /\ load_calls
       (perform_all Doubles.broken
          [CallHandleRequest (VDict (Fixture.request "1" "initialize" []));
           CallHandleRequest (VDict (Fixture.request "1" "initialize" []))]
          Doubles.fresh) = 2%nat.
Proof.
  destruct (initialize_loader_failure Doubles.broken (Fixture.request "1" "initialize" [])
              (Exn "RuntimeError" "no tools") [] 0%nat Doubles.fresh
              eq_refl eq_refl eq_refl) as (H1 & _ & _ & H4).
  split; [exact H1|].
  exact (H4 (Exn "RuntimeError" "no tools") [] 0%nat eq_refl).
Defined.

Lemma non_dict_line_ends_loop_witness :
  loop Fixture.server Doubles.json_loads
    [Doubles.array_line ^^ newline; Fixture.list_line ^^ newline] Fixture.fresh []
  = (Ok tt,
     log_unexpected (AttributeError "'list' object has no attribute 'get'") Fixture.fresh,
     []).
Proof.
  refine (non_dict_line_ends_loop Fixture.server Doubles.json_loads
            (Doubles.array_line ^^ newline) _ (VList [VInt 1]) Fixture.fresh []
            eq_refl eq_refl eq_refl _).
  intros d. discriminate.
Defined.

Lemma blank_line_ends_loop_witness :
  loop Fixture.server Fixture.json_loads
    [Fixture.blank_line; Fixture.list_line ^^ newline] Fixture.fresh ["earlier"]
  = (Ok tt, Fixture.fresh, ["earlier"]).
Proof.
  exact (blank_line_ends_loop Fixture.server Fixture.json_loads Fixture.blank_line _
           Fixture.fresh ["earlier"] (or_introl eq_refl)).
Defined.

Lemma run_returns_and_closes_witness :
  exists self' stdout,
    run Fixture.server Fixture.json_loads
      [Fixture.bad_line; Fixture.list_line ^^ newline] Fixture.fresh
    = (Ok tt, self', stdout)
    /\ _closed (transport self') = true.
Proof.
  apply (run_returns_and_closes Fixture.server Fixture.json_loads).
  - intros ts c. reflexivity.
  - intros c. reflexivity.
Defined.

Lemma http_mcp_always_answers_witness :
  exists response self',
    http_server.handle_mcp_request Fixture.managers Doubles.connection_close
      {| http_server.jsonrpc := "2.0"; http_server.id := "5";
         http_server.method := "tools/list"; http_server.params := [] |}
      Doubles.app
    = (http_server.Return response, http_server.with_server self' Doubles.app)
    /\ response_field response "id" = Some (VStr "5").
Proof.
  destruct (proj2 (http_mcp_always_answers Fixture.managers Doubles.connection_close
                     {| http_server.jsonrpc := "2.0"; http_server.id := "5";
                        http_server.method := "tools/list"; http_server.params := [] |}
                     Doubles.app) Fixture.fresh eq_refl)
    as (response & self' & _ & H & _ & Hid).
  exists response, self'. split; [exact H | exact Hid].
Defined.

Lemma http_call_tool_status_witness :
  http_server.call_tool_http Fixture.managers Doubles.connection_close
    "does_not_exist" [] Doubles.app
  = (http_server.HTTPException 500 "Tool 'does_not_exist' not found",
     http_server.with_server Fixture.fresh Doubles.app)
  /\ exists envelope self',
      http_server.call_tool_http Fixture.managers Doubles.connection_close
        "get_pools" [] Doubles.app
      = (http_server.Return
           (VDict [("tool_name", VStr "get_pools"); ("result", envelope)]),
         http_server.with_server self' Doubles.app).
Proof.
  destruct (http_call_tool_status Fixture.managers Doubles.connection_close
              "does_not_exist" [] Doubles.app Fixture.fresh eq_refl) as (H1 & _).
  destruct (http_call_tool_status Fixture.managers Doubles.connection_close
              "get_pools" [] Doubles.app Fixture.fresh eq_refl) as (_ & H2).
  split.
  - apply H1. simpl. intuition discriminate.
  - destruct H2 as (envelope & self' & _ & H & _); [simpl; tauto|].
    now exists envelope, self'.
Defined.

Lemma http_stats_never_fails_witness :
  exists self',
    http_server.get_platform_stats Fixture.managers Doubles.connection_close Doubles.app
    = (http_server.Return
         (VDict [("omnichain", VDict []); ("governance", VDict []); ("defi", VDict [])]),
       http_server.with_server self' Doubles.app).
Proof.
  destruct (http_stats_never_fails Fixture.managers Doubles.connection_close
              Doubles.app Fixture.fresh eq_refl)
    as (e1 & s1 & e2 & s2 & e3 & s3 & H1 & H2 & H3 & H & _).
  exists s3. rewrite H.
  vm_compute in H1. injection H1 as <- <-.
  vm_compute in H2. injection H2 as <- <-.
  vm_compute in H3. injection H3 as <- <-.
  reflexivity.
Defined.


Lemma chain_lookup_ignores_case_witness :
  config.get_rpc_url config.default "bsc" = config.get_rpc_url config.default "BSC"
  /\ config.get_chain_config config.default "BSC"
     = dict_get config.default_supported_chains "bsc" VNone.
Proof.
  destruct (chain_lookup_ignores_case config.default "BSC") as (_ & H & _ & Hv).
  split; [exact H|].
  exact (proj1 (Hv _ eq_refl)).
Defined.

Lemma chain_name_validator_vs_config_witness :
  config.get_chain_config config.default "BSC" <> VNone
  /\ validation.validate_chain_name "Arbitrum" = false.
Proof.
  split.
  - apply (proj1 (chain_name_validator_vs_config "BSC") eq_refl). discriminate.
  - apply (proj2 (chain_name_validator_vs_config "Arbitrum")). simpl. tauto.
Defined.

Lemma transaction_hash_accepted_witness :
  validation.validate_transaction_hash ("0x" ^^ Doubles.hash64) = true
  /\ validation.validate_transaction_hash (Doubles.digits63 ^^ newline) = true.
Proof.
  split.
  - apply (proj2 (transaction_hash_accepted ("0x" ^^ Doubles.hash64))).
    exists Doubles.hash64, Doubles.digits63, "d"%char.
    split; [now left|]. repeat split. now left.
  - apply (proj2 (transaction_hash_accepted (Doubles.digits63 ^^ newline))).
    exists (Doubles.digits63 ^^ newline), Doubles.digits63, "010"%char.
    split; [right; split; reflexivity|]. repeat split. now right.
Defined.


Lemma tally_invariant_witness :
  Forall (fun kp => governance.consistent (snd kp))
    (governance.proposals
       (governance.apply_all Doubles.validate_address Doubles.other_add
          Doubles.percentages Doubles.operations Doubles.manager)).
Proof.
  apply (tally_invariant Doubles.validate_address Doubles.other_add Doubles.percentages
           1000 1000 1000 1000 Doubles.operations).
  repeat constructor; simpl; discriminate.
Defined.

Lemma manager_consistent :
  Forall (fun kp => governance.consistent (snd kp)) (governance.proposals Doubles.manager).
Proof. repeat constructor; simpl; eexists _, _, _; repeat split. Defined.

Lemma vote_accepted_iff_witness :
  response_field
    (fst (governance.vote_on_proposal Doubles.validate_address Doubles.other_add 2000
            (VStr "prop_001") (VStr "0xabc") (VStr "yes") (VInt 5) Doubles.manager))
    "success"
  = Some (VBool true)
  /\ governance.proposals
       (snd (governance.vote_on_proposal Doubles.validate_address Doubles.other_add 2000
               (VStr "prop_002") (VStr "0xabc") (VStr "yes") (VInt 5) Doubles.manager))
     = governance.proposals Doubles.manager.
Proof.
  destruct (vote_accepted_iff Doubles.validate_address Doubles.other_add 2000
              (VStr "prop_001") (VStr "0xabc") (VStr "yes") (VInt 5) 5 Doubles.manager
              eq_refl manager_consistent) as (H1 & _).
  destruct (vote_accepted_iff Doubles.validate_address Doubles.other_add 2000
              (VStr "prop_002") (VStr "0xabc") (VStr "yes") (VInt 5) 5 Doubles.manager
              eq_refl manager_consistent) as (_ & H2).
  split.
  - apply H1. eexists _, _, _. split; [reflexivity|]. split; [reflexivity|].
    split; [reflexivity|]. split; [reflexivity|]. split; [simpl; tauto|]. simpl. lia.
  - apply H2. discriminate.
Defined.

Lemma vote_effect_witness :
  exists p',
    governance.lookup
      (governance.proposals
         (snd (governance.vote_on_proposal Doubles.validate_address Doubles.other_add
                 2000 (VStr "prop_001") (VStr "0xabc") (VStr "no") (VInt (-7))
                 Doubles.manager))) "prop_001" = Some p'
    /\ governance.totalVotingPower p' = VInt (1800000 - 7)
    /\ governance.no (governance.votes p') = VInt (200000 - 7).
Proof.
  destruct (vote_effect Doubles.validate_address Doubles.other_add 2000 "prop_001"
              (VStr "0xabc") "no" (VInt (-7)) (-7) Doubles.manager _
              eq_refl manager_consistent eq_refl eq_refl)
    as (cy & cn & ca & p' & Hy & Hn & Ha & Hl & Ht & _ & Hno & _).
  - simpl. tauto.
  - simpl. lia.
  - injection Hy as <-. injection Hn as <-. injection Ha as <-.
    exists p'. split; [exact Hl|]. split; [exact Ht | exact Hno].
Defined.

Lemma get_proposals_sorted_witness :
  governance.newest_first (governance.listed (Some "voting")
                             (governance.proposals Doubles.manager))
  /\ forall p,
      In p (governance.listed None (governance.proposals Doubles.manager)) ->
      In (governance.id p, p)
        (map (fun kp => (governance.id (snd kp), snd kp))
           (governance.proposals Doubles.manager)).
Proof.
  split.
  - exact (proj1 (proj2 (get_proposals_sorted (Some "voting") Doubles.manager))).
  - exact (proj2 (proj2 (proj2 (get_proposals_sorted None Doubles.manager)))).
Defined.
